(** * TeX-Bot-Py-V2: the guild-resource cache and the error-capture protocol

    A shallow embedding of [utils.py] (the [TeXBot] class and [get_oauth_url])
    and of [cogs/_utils.py] ([TeXBotCog.send_error], the channel autocomplete,
    [capture_error] and its two partial applications), followed by the
    properties established about them.

    Python objects keep their dynamic nature: instance attributes live in a
    finite map from attribute names to objects, exceptions are values of a
    sum type, and every operation that can raise returns a [Result].  Texts
    that may hold user input are lists of code points, and the two Unicode
    tables that the code consults are parameters. *)

From Stdlib Require Import ZArith String Ascii List Bool Lia.
From stdpp Require Import base option gmap strings list.

Open Scope string_scope.
Open Scope Z_scope.

(** ** Python values, exceptions and results *)

Module Py.

(** Values that the [settings] mapping of the [setup] module can hold. *)
Inductive PyVal : Type :=
| PyNone
| PyStr (s : string)
| PyInt (z : Z).

(** Python truthiness of such a value ([not v] is its negation). *)
Definition truthy (v : PyVal) : bool :=
  match v with
  | PyNone => false
  | PyStr s => negb (String.eqb s "")
  | PyInt z => negb (z =? 0)
  end.

(** [z == v] for an integer [z] (an [int] never equals a [str] or [None]). *)
Definition int_eq (z : Z) (v : PyVal) : bool :=
  match v with
  | PyInt z' => z =? z'
  | _ => false
  end.

(** Exceptions raised by the modelled code.  [GuildDoesNotExist],
    [StrikeTrackingError] and [ImproperlyConfigured] come from the
    repository's [exceptions] module; the others are builtins. *)
Inductive Exn : Type :=
| GuildDoesNotExist (guild_id : PyVal)
| StrikeTrackingError (message : string)
| ImproperlyConfigured (message : string)
| KeyError (key : string)
| AttributeError (name : string)
| TypeError (message : string).

(** An exception class, seen through [isinstance(e, cls)]. *)
Definition ExnType : Type := Exn -> bool.

Definition GuildDoesNotExist_type : ExnType :=
  fun e => match e with GuildDoesNotExist _ => true | _ => false end.

Definition StrikeTrackingError_type : ExnType :=
  fun e => match e with StrikeTrackingError _ => true | _ => false end.

Definition BaseException_type : ExnType := fun _ => true.

Inductive Result (A : Type) : Type :=
| Return (a : A)
| Raise (e : Exn).
Arguments Return {A} a.
Arguments Raise {A} e.

#[global] Instance Result_ret : MRet Result := fun _ a => Return a.
#[global] Instance Result_bind : MBind Result := fun _ _ f r =>
  match r with
  | Return a => f a
  | Raise e => Raise e
  end.

(** Code that reads and writes a state [S] and may raise: the state an
    exception leaves behind is kept, as in Python. *)
Definition M (S A : Type) : Type := S -> Result A * S.

#[global] Instance M_ret {S} : MRet (M S) := fun _ a s => (Return a, s).
#[global] Instance M_bind {S} : MBind (M S) := fun _ _ f m s =>
  match m s with
  | (Return a, s') => f a s'
  | (Raise e, s') => (Raise e, s')
  end.

Definition raise {S A} (e : Exn) : M S A := fun s => (Raise e, s).
Definition gets {S A} (f : S -> A) : M S A := fun s => (Return (f s), s).
Definition modify {S} (f : S -> S) : M S unit := fun s => (Return tt, f s).
Definition lift_result {S A} (r : Result A) : M S A := fun s => (r, s).

(** [settings[key]] on the [settings] dict. *)
Definition getitem (settings : gmap string PyVal) (key : string) : Result PyVal :=
  match settings !! key with
  | Some v => Return v
  | None => Raise (KeyError key)
  end.

End Py.
Export Py.

(** ** The parts of the Discord client library that the code touches *)

Module Discord.

Record Role : Type := mkRole {
  role_id : Z;
  role_name : string;
  role_mention : string
}.

Record TextChannel : Type := mkTextChannel {
  channel_id : Z;
  channel_name : string;
  channel_mention : string
}.

(** A guild as the library caches it.  [rules_channel] is the library's
    property: the channel of the guild whose id is the guild's rules-channel
    id, typed [TextChannel | None]. *)
Record Guild : Type := mkGuild {
  guild_id : Z;
  roles : list Role;
  text_channels : list TextChannel;
  rules_channel_id : option Z
}.

(** [discord.utils.get(iterable, attr=value)] with one attribute: the first
    element whose attribute equals the value, else [None]. *)
Definition get {A : Type} (iterable : list A) (attr_is : A -> bool) : option A :=
  List.find attr_is iterable.

Definition rules_channel (g : Guild) : option TextChannel :=
  match rules_channel_id g with
  | Some i => get (text_channels g) (fun c => channel_id c =? i)
  | None => None
  end.

(** The objects a cache slot of the bot can refer to. *)
Inductive PyObj : Type :=
| ONone
| OGuild (g : Guild)
| ORole (r : Role)
| OChannel (c : TextChannel).

(** None of the library's model classes defines [__bool__] or [__len__]:
    only [None] is falsy. *)
Definition obj_truthy (o : PyObj) : bool :=
  match o with
  | ONone => false
  | _ => true
  end.

Definition of_role (r : option Role) : PyObj :=
  match r with Some r => ORole r | None => ONone end.

Definition of_channel (c : option TextChannel) : PyObj :=
  match c with Some c => OChannel c | None => ONone end.

(** Attribute reads [o.id], [o.roles], [o.text_channels],
    [o.rules_channel], [o.mention]. *)
Definition attr_id (o : PyObj) : Result Z :=
  match o with
  | ONone => Raise (AttributeError "id")
  | OGuild g => Return (guild_id g)
  | ORole r => Return (role_id r)
  | OChannel c => Return (channel_id c)
  end.

Definition attr_roles (o : PyObj) : Result (list Role) :=
  match o with
  | OGuild g => Return (roles g)
  | _ => Raise (AttributeError "roles")
  end.

Definition attr_text_channels (o : PyObj) : Result (list TextChannel) :=
  match o with
  | OGuild g => Return (text_channels g)
  | _ => Raise (AttributeError "text_channels")
  end.

Definition attr_rules_channel (o : PyObj) : Result (option TextChannel) :=
  match o with
  | OGuild g => Return (rules_channel g)
  | _ => Raise (AttributeError "rules_channel")
  end.

Definition attr_mention (o : PyObj) : Result string :=
  match o with
  | ORole r => Return (role_mention r)
  | OChannel c => Return (channel_mention c)
  | _ => Raise (AttributeError "mention")
  end.

(** [discord.Object], a bare id, and [discord.Permissions], here the set of
    the flags passed as [True]. *)
Record DiscordObject : Type := mkObject { object_id : Z }.

Definition Permissions : Type := gset string.

End Discord.
Export Discord.

(** ** [utils.py] *)

Module Utils.

(** A [TeXBot] instance: the attributes that the class itself assigns (its
    instance dictionary) and the library's [guilds] property, the guilds
    the bot is currently connected to. *)
Record TeXBot : Type := mkTeXBot {
  attrs : gmap string PyObj;
  guilds : list Guild
}.

Definition getattr (name : string) : M TeXBot PyObj := fun self =>
  match attrs self !! name with
  | Some o => (Return o, self)
  | None => (Raise (AttributeError name), self)
  end.

Definition setattr (name : string) (o : PyObj) : M TeXBot unit :=
  modify (fun self => {| attrs := <[name := o]> (attrs self); guilds := guilds self |}).

Definition is_none {A : Type} (o : option A) : bool :=
  match o with Some _ => false | None => true end.

(** [TeXBot.__init__]: eight assignments, then the library's own
    initialisation (which touches none of these attributes). *)
Definition __init__ : M TeXBot unit :=
  setattr "_css_guild" ONone;;
  setattr "_committee_role" ONone;;
  setattr "_guest_role" ONone;;
  setattr "_member_role" ONone;;
  setattr "_archivist_role" ONone;;
  setattr "_roles_channel" ONone;;
  setattr "_general_channel" ONone;;
  setattr "_welcome_channel" ONone.

(** The object a constructor call yields: a blank instance, not yet
    connected to any guild, run through [__init__]. *)
Definition new : TeXBot := snd (__init__ {| attrs := ∅; guilds := [] |}).

Section WithSettings.

Variable settings : gmap string PyVal.

Definition css_guild : M TeXBot PyObj :=
  cached ← getattr "_css_guild";
  missing ← (if negb (obj_truthy cached) then mret true
             else
               connected ← gets guilds;
               wanted ← lift_result (getitem settings "DISCORD_GUILD_ID");
               mret (is_none (get connected (fun g => int_eq (guild_id g) wanted))));
  if (missing : bool) then
    wanted ← lift_result (getitem settings "DISCORD_GUILD_ID");
    raise (GuildDoesNotExist wanted)
  else getattr "_css_guild".

(** The four role properties are the same code up to the slot and the
    role name, and so are the two name-based channel properties. *)
Definition role_property (slot name : string) : M TeXBot PyObj :=
  cached ← getattr slot;
  stale ← (if negb (obj_truthy cached) then mret true
           else
             guild ← css_guild;
             guild_roles ← lift_result (attr_roles guild);
             cached' ← getattr slot;
             cached_id ← lift_result (attr_id cached');
             mret (is_none (get guild_roles (fun r => role_id r =? cached_id))));
  (if (stale : bool) then
     guild ← css_guild;
     guild_roles ← lift_result (attr_roles guild);
     setattr slot (of_role (get guild_roles (fun r => String.eqb (role_name r) name)))
   else mret tt);;
  getattr slot.

Definition committee_role : M TeXBot PyObj := role_property "_committee_role" "Committee".
Definition guest_role : M TeXBot PyObj := role_property "_guest_role" "Guest".
Definition member_role : M TeXBot PyObj := role_property "_member_role" "Member".
Definition archivist_role : M TeXBot PyObj := role_property "_archivist_role" "Archivist".

(** The staleness test shared by the three channel properties. *)
Definition channel_is_stale (slot : string) : M TeXBot bool :=
  cached ← getattr slot;
  if negb (obj_truthy cached) then mret true
  else
    guild ← css_guild;
    channels ← lift_result (attr_text_channels guild);
    cached' ← getattr slot;
    cached_id ← lift_result (attr_id cached');
    mret (is_none (get channels (fun c => channel_id c =? cached_id))).

Definition channel_property (slot name : string) : M TeXBot PyObj :=
  stale ← channel_is_stale slot;
  (if (stale : bool) then
     guild ← css_guild;
     channels ← lift_result (attr_text_channels guild);
     setattr slot (of_channel (get channels (fun c => String.eqb (channel_name c) name)))
   else mret tt);;
  getattr slot.

Definition roles_channel : M TeXBot PyObj := channel_property "_roles_channel" "roles".
Definition general_channel : M TeXBot PyObj := channel_property "_general_channel" "general".

Definition welcome_channel : M TeXBot PyObj :=
  stale ← channel_is_stale "_welcome_channel";
  (if (stale : bool) then
     guild ← css_guild;
     rules ← lift_result (attr_rules_channel guild);
     fetched ← match rules with
               | Some c => mret (OChannel c)
               | None =>
                   guild' ← css_guild;
                   channels ← lift_result (attr_text_channels guild');
                   mret (of_channel (get channels (fun c => String.eqb (channel_name c) "welcome")))
               end;
     setattr "_welcome_channel" fetched
   else mret tt);;
  getattr "_welcome_channel".

(** The accessors of the class, by kind. *)
Definition role_accessors : list (M TeXBot PyObj * string * string) :=
  [ (committee_role, "_committee_role", "Committee");
    (guest_role, "_guest_role", "Guest");
    (member_role, "_member_role", "Member");
    (archivist_role, "_archivist_role", "Archivist") ].

Definition named_channel_accessors : list (M TeXBot PyObj * string * string) :=
  [ (roles_channel, "_roles_channel", "roles");
    (general_channel, "_general_channel", "general") ].

Definition accessors : list (M TeXBot PyObj) :=
  css_guild :: map (fun a => fst (fst a)) role_accessors
    ++ map (fun a => fst (fst a)) named_channel_accessors ++ [welcome_channel].

End WithSettings.

Section OAuth.

Variable settings : gmap string PyVal.

(** Python's [int(s)] on a string: [None] where it raises [ValueError]. *)
Variable int_of_str : string -> option Z.

(** The library's [discord.utils.oauth_url]. *)
Variable oauth_url : PyVal -> Permissions -> DiscordObject -> gset string -> bool -> string.

(** [discord.Object(id=...)]: the library converts the id with [int] and
    raises [TypeError] when that fails. *)
Definition Object (id : PyVal) : Result DiscordObject :=
  match id with
  | PyInt z => Return (mkObject z)
  | PyStr s =>
      match int_of_str s with
      | Some z => Return (mkObject z)
      | None => Raise (TypeError "id parameter must be convertible to int")
      end
  | PyNone => Raise (TypeError "id parameter must be convertible to int")
  end.

Definition oauth_permissions : Permissions :=
  {[ "manage_roles"; "read_messages"; "send_messages"; "manage_messages";
     "embed_links"; "read_message_history"; "mention_everyone"; "add_reactions";
     "use_slash_commands"; "kick_members"; "manage_channels" ]}.

Definition oauth_scopes : gset string := {[ "bot"; "applications.commands" ]}.

Definition get_oauth_url : Result string :=
  application_id ← getitem settings "DISCORD_BOT_APPLICATION_ID";
  if negb (truthy application_id) then
    Raise (ImproperlyConfigured
             "DISCORD_BOT_APPLICATION_ID must be provided in order to use the get_oauth_url() utility function")
  else
    client_id ← getitem settings "DISCORD_BOT_APPLICATION_ID";
    wanted ← getitem settings "DISCORD_GUILD_ID";
    guild ← Object wanted;
    mret (oauth_url client_id oauth_permissions guild oauth_scopes true).

End OAuth.

(** The names under which the class caches guild objects. *)
Definition cache_slots : gset string :=
  {[ "_css_guild"; "_committee_role"; "_guest_role"; "_member_role";
     "_archivist_role"; "_roles_channel"; "_general_channel"; "_welcome_channel" ]}.

End Utils.
Export Utils.


(** ** Python strings *)

(** Names, error codes, log records and the texts written in the source are
    [string]s.  The message that [send_error] is given, the reply it sends
    and the text typed into an autocomplete field are arbitrary Python [str]
    values: they are kept as the list of their code points. *)

Module Str.

Definition newline : string := String (ascii_of_nat 10) "".

(** [c in chars]. *)
Fixpoint contains (chars : string) (c : ascii) : bool :=
  match chars with
  | EmptyString => false
  | String c' rest => Ascii.eqb c c' || contains rest c
  end.

(** [s.rstrip(chars)], for the set of characters [strippable]. *)
Fixpoint rstrip (strippable : ascii -> bool) (s : string) : string :=
  match s with
  | EmptyString => EmptyString
  | String c rest =>
      match rstrip strippable rest with
      | EmptyString => if strippable c then EmptyString else String c EmptyString
      | kept => String c kept
      end
  end.

(** [s.startswith(prefix)]. *)
Definition startswith (s prefix : string) : bool := String.prefix prefix s.

(** Truthiness of a [str | None] argument. *)
Definition nonempty (s : option string) : bool :=
  match s with
  | Some s => negb (String.eqb s "")
  | None => false
  end.

End Str.

Module Text.

(** A [str] as its code points. *)
Definition text : Type := list N.

(** A text written in the source. *)
Fixpoint text_of (s : string) : text :=
  match s with
  | EmptyString => []
  | String c rest => N_of_ascii c :: text_of rest
  end.

(** [c in chars], for a set of characters written in the source. *)
Definition among (chars : string) (c : N) : bool :=
  existsb (N.eqb c) (text_of chars).

(** [s.lstrip()] and [s.rstrip()], for the set of code points [strippable]. *)
Fixpoint lstrip (strippable : N -> bool) (s : text) : text :=
  match s with
  | [] => []
  | c :: rest => if strippable c then lstrip strippable rest else s
  end.

Fixpoint rstrip (strippable : N -> bool) (s : text) : text :=
  match s with
  | [] => []
  | c :: rest =>
      match rstrip strippable rest with
      | [] => if strippable c then [] else [c]
      | kept => c :: kept
      end
  end.

(** [s.strip()]; [isspace] is the table of the code points that Python
    counts as whitespace. *)
Definition strip (isspace : N -> bool) (s : text) : text :=
  rstrip isspace (lstrip isspace s).

(** Truthiness of a [str | None] argument. *)
Definition nonempty (s : option text) : bool :=
  match s with
  | Some [] => false
  | Some (_ :: _) => true
  | None => false
  end.

End Text.
Export Text.

(** ** The fragment of [re] that the cogs use *)

Module Re.

(** Patterns: a literal, a character class, sequence, ordered alternative,
    greedy [?], and greedy [+] over a character class. *)
Inductive regex : Type :=
| Lit (c : N)
| Class (p : N -> bool)
| Seq (r1 r2 : regex)
| Alt (r1 r2 : regex)
| Opt (r : regex)
| Plus (p : N -> bool).

(** One or more characters of the class, as many as the rest of the pattern
    (the continuation [k]) allows. *)
Fixpoint match_plus (p : N -> bool) (s : text) (k : text -> option text) : option text :=
  match s with
  | [] => None
  | c :: rest =>
      if p c then
        match match_plus p rest k with
        | Some r => Some r
        | None => k rest
        end
      else None
  end.

(** The backtracking matcher: [rmatch r s k] matches [r] at the start of [s]
    and hands what is left to [k]; alternatives are tried in order and
    repetitions longest first.  The result is the text after the match. *)
Fixpoint rmatch (r : regex) (s : text) (k : text -> option text) : option text :=
  match r with
  | Lit c =>
      match s with
      | c' :: rest => if N.eqb c c' then k rest else None
      | [] => None
      end
  | Class p =>
      match s with
      | c' :: rest => if p c' then k rest else None
      | [] => None
      end
  | Seq r1 r2 => rmatch r1 s (fun s' => rmatch r2 s' k)
  | Alt r1 r2 =>
      match rmatch r1 s k with
      | Some x => Some x
      | None => rmatch r2 s k
      end
  | Opt r1 =>
      match rmatch r1 s k with
      | Some x => Some x
      | None => k s
      end
  | Plus p => match_plus p s k
  end.

(** [pattern.match(s)]: the length of the match at the start of [s]. *)
Definition match_length (r : regex) (s : text) : option nat :=
  match rmatch r s Some with
  | Some rest => Some (length s - length rest)%nat
  | None => None
  end.

(** [re.sub(r, repl, s)], scanning from the left; [skip] counts the
    characters still covered by the last match.  An empty match is replaced
    and the scan moves one character on. *)
Fixpoint sub_from (r : regex) (repl : text -> text) (skip : nat) (s : text) : text :=
  match s with
  | [] =>
      match match_length r [] with
      | Some _ => repl []
      | None => []
      end
  | c :: rest =>
      match skip with
      | S skip' => sub_from r repl skip' rest
      | O =>
          match match_length r s with
          | Some O => (repl [] ++ c :: sub_from r repl 0 rest)%list
          | Some (S n) => (repl (firstn (S n) s) ++ sub_from r repl n rest)%list
          | None => c :: sub_from r repl 0 rest
          end
      end
  end.

Definition sub (r : regex) (repl : text -> text) (s : text) : text :=
  sub_from r repl 0 s.

(** [<([@&#]?|(@[&#])?)\d+>]; [decimal] is the table of the code points that
    [\d] matches in a [str] pattern, the decimal digits of every script. *)
Definition mention_pattern (decimal : N -> bool) : regex :=
  Seq (Lit 60)
    (Seq (Alt (Opt (Class (among "@&#")))
              (Opt (Seq (Lit 64) (Class (among "&#")))))
         (Seq (Plus decimal) (Lit 62))).

End Re.

(** ** [cogs/_utils.py] *)

Module Cogs.

Inductive LogLevel : Type := CRITICAL | ERROR | WARNING.

(** What a running cog acts on: the bot it refers to, whether the bot's
    connection was closed, the responses sent to command contexts (text and
    [ephemeral] flag) and the records handed to [logging]. *)
Record World (B : Type) : Type := mkWorld {
  bot : B;
  closed : bool;
  responses : list (text * bool);
  logged : list (LogLevel * string)
}.
Arguments mkWorld {B}.
Arguments bot {B}.
Arguments closed {B}.
Arguments responses {B}.
Arguments logged {B}.

(** The command of an application context: its callback's [__name__], when it
    has a callback, and its qualified name. *)
Record ApplicationCommand : Type := mkCommand {
  callback : option string;
  qualified_name : string
}.

Record ApplicationContext : Type := mkContext {
  command : ApplicationCommand
}.

(** The [logging_message] argument: [str | BaseException | None]. *)
Inductive LoggingMessage : Type :=
| NoLoggingMessage
| LoggingStr (s : string)
| LoggingExn (e : Exn).

(** The object a wrapped method is called on: a cog, or anything else, of
    which only an optional [__name__] matters. *)
Inductive Instance : Type :=
| CogInstance
| OtherInstance (__name__ : option string).

(** What [send_error] uses of the bot class: the whole expression
    [await self.bot.committee_role]. *)
Class TeXBotLike (B : Type) : Type := {
  bot_committee_role : gmap string PyVal -> M B PyObj
}.

(** [type(o).__name__]. *)
Definition type_name (o : PyObj) : string :=
  match o with
  | ONone => "NoneType"
  | OGuild _ => "Guild"
  | ORole _ => "Role"
  | OChannel _ => "TextChannel"
  end.

(** [await o] for an object [o] of the library or [None]: none of them is
    awaitable. *)
Definition await_object {S : Type} (o : PyObj) : M S PyObj :=
  raise (TypeError ("object " ++ type_name o ++ " can't be used in 'await' expression")).

(** The class of [utils.py]: its [committee_role] is a plain property, so
    the property runs and the [await] that is applied to its value fails. *)
#[global] Instance TeXBot_TeXBotLike : TeXBotLike TeXBot := {
  bot_committee_role settings := o ← committee_role settings; await_object o
}.

(** Modelled from the spec: the bot class that the cogs import,
    [utils/tex_bot.py], which [utils/__init__.py] exports and which is not
    part of the sources at hand.  The cogs await its role accessors and read
    its [css_guild] as a plain attribute; what these answer is the guild,
    role and channel data that the bot caches, so a bot of this class is
    given by its three answers, and asking changes nothing. *)
Record AwaitableBot : Type := mkAwaitableBot {
  awaited_css_guild : Result PyObj;
  awaited_committee_role : Result PyObj;
  awaited_guest_role : Result PyObj
}.

#[global] Instance AwaitableBot_TeXBotLike : TeXBotLike AwaitableBot := {
  bot_committee_role settings := fun b => (awaited_committee_role b, b)
}.

Definition ERROR_ACTIVITIES : gmap string string :=
  list_to_map
    [ ("ping", "reply to ping");
      ("write_roles", "send messages");
      ("edit_message", "edit the message");
      ("induct", "induct user");
      ("silent_induct", "silently induct user");
      ("non_silent_induct", "induct user and send welcome message");
      ("make_member", "make you a member");
      ("remind_me", "remind you");
      ("channel_stats", "display channel statistics");
      ("server_stats", "display whole server statistics");
      ("user_stats", "display your statistics");
      ("left_member_stats", "display statistics about the members that have left the server");
      ("archive", "archive the selected category");
      ("ensure_members_inducted", "ensure all members are inducted") ].

Section WithBot.

Context {B : Type} `{TeXBotLike B}.

Variable settings : gmap string PyVal.

(** Python's [str] on an exception and [repr] on a string. *)
Variable str_exn : Exn -> string.
Variable repr : string -> string.

(** The two Unicode tables that [send_error] consults: the whitespace that
    [str.strip] removes and the decimal digits that [\d] matches. *)
Variable isspace : N -> bool.
Variable decimal : N -> bool.

(** Run code of the bot inside the world. *)
Definition on_bot {A : Type} (m : M B A) : M (World B) A := fun w =>
  let '(r, b) := m (bot w) in
  (r, mkWorld b (closed w) (responses w) (logged w)).

(** [await ctx.respond(text, ephemeral=...)]. *)
Definition respond (reply : text) (ephemeral : bool) : M (World B) unit :=
  modify (fun w => mkWorld (bot w) (closed w) (responses w ++ [(reply, ephemeral)]) (logged w)).

(** [logging.critical], [logging.error], [logging.warning]. *)
Definition logging (level : LogLevel) (record : string) : M (World B) unit :=
  modify (fun w => mkWorld (bot w) (closed w) (responses w) (logged w ++ [(level, record)])).

(** [await self.bot.close()]. *)
Definition close : M (World B) unit :=
  modify (fun w => mkWorld (bot w) true (responses w) (logged w)).

Definition logging_message_truthy (m : LoggingMessage) : bool :=
  match m with
  | NoLoggingMessage => false
  | LoggingStr s => negb (String.eqb s "")
  | LoggingExn _ => true
  end.

Definition logging_message_str (m : LoggingMessage) : string :=
  match m with
  | NoLoggingMessage => "None"
  | LoggingStr s => s
  | LoggingExn e => str_exn e
  end.

Definition command_name (ctx : ApplicationContext) : string :=
  match callback (command ctx) with
  | Some name =>
      if negb (Str.startswith name "_") then name else qualified_name (command ctx)
  | None => qualified_name (command ctx)
  end.

(** [lambda match: f"`{match.group(0)}`"]. *)
Definition backticked (matched : text) : text :=
  (text_of "`" ++ matched ++ text_of "`")%list.

Definition send_error (ctx : ApplicationContext) (error_code : option string)
    (message : option text) (logging_message : LoggingMessage) : M (World B) unit :=
  let construct_error_message := ":warning:There was an error" in
  let construct_logging_error_message := "" in
  '(construct_error_message, construct_logging_error_message) ←
    (if Str.nonempty error_code then
       committee_role ← on_bot (bot_committee_role settings);
       committee_mention ←
         (if obj_truthy committee_role then lift_result (attr_mention committee_role)
          else mret "committee");
       mret ("**Contact a " ++ committee_mention ++ " member, referencing error code: "
               ++ default "" error_code ++ "**" ++ Str.newline ++ construct_error_message,
             construct_logging_error_message ++ default "" error_code)
     else mret (construct_error_message, construct_logging_error_message));
  let command_name := command_name ctx in
  let construct_error_message :=
    match ERROR_ACTIVITIES !! command_name with
    | Some activity => construct_error_message ++ " when trying to " ++ activity
    | None => construct_error_message
    end in
  let construct_logging_error_message :=
    if negb (String.eqb construct_logging_error_message "")
    then construct_logging_error_message ++ " "
    else construct_logging_error_message in
  let construct_logging_error_message :=
    construct_logging_error_message ++ "(" ++ command_name ++ ")" in
  let construct_error_message :=
    if Text.nonempty message then construct_error_message ++ ":"
    else construct_error_message ++ "." in
  let construct_error_message := construct_error_message ++ ":warning:" in
  let construct_error_message : text :=
    if Text.nonempty message then
      let message :=
        Re.sub (Re.mention_pattern decimal) backticked
          (Text.strip isspace (default [] message)) in
      (text_of construct_error_message ++ text_of Str.newline
         ++ text_of "`" ++ message ++ text_of "`")%list
    else text_of construct_error_message in
  respond construct_error_message true;;
  if logging_message_truthy logging_message then
    let construct_logging_error_message :=
      if negb (String.eqb construct_logging_error_message "")
      then construct_logging_error_message ++ " "
      else construct_logging_error_message in
    logging ERROR (construct_logging_error_message ++ logging_message_str logging_message)
  else mret tt.

(** [capture_error(func, error_type, close_func)]: the wrapper it returns,
    called on [self] with the arguments [args]. *)
Definition capture_error {P T : Type} (func : Instance -> P -> M (World B) T)
    (error_type : ExnType) (close_func : Exn -> M (World B) unit)
    : Instance -> P -> M (World B) (option T) :=
  fun self args =>
    match self with
    | OtherInstance name =>
        match name with
        | Some name =>
            raise (TypeError ("Parameter " ++ repr name
                                ++ " of any 'capture_error' decorator must be an instance of "
                                ++ repr "TeXBotCog" ++ "/one of its subclasses."))
        | None => raise (AttributeError "__name__")
        end
    | CogInstance =>
        fun w =>
          match func self args w with
          | (Return v, w') => (Return (Some v), w')
          | (Raise error, w') =>
              if error_type error then
                (close_func error;; close;; mret None) w'
              else (Raise error, w')
          end
    end.

Definition guild_does_not_exist_error_close_func (error : Exn) : M (World B) unit :=
  logging CRITICAL (Str.rstrip (Str.contains ".:") (str_exn error)).

Definition strike_tracking_error_close_func (error : Exn) : M (World B) unit :=
  guild_does_not_exist_error_close_func error;;
  logging WARNING "Critical errors are likely to lead to untracked moderation actions".

Definition capture_guild_does_not_exist_error {P T : Type}
    (func : Instance -> P -> M (World B) T) : Instance -> P -> M (World B) (option T) :=
  capture_error func GuildDoesNotExist_type guild_does_not_exist_error_close_func.

Definition capture_strike_tracking_error {P T : Type}
    (func : Instance -> P -> M (World B) T) : Instance -> P -> M (World B) (option T) :=
  capture_error func StrikeTrackingError_type strike_tracking_error_close_func.

End WithBot.

End Cogs.


(** ** Concrete configurations, used to run the definitions *)

Module Examples.

Definition settings : gmap string PyVal :=
  {[ "DISCORD_GUILD_ID" := PyInt 7; "DISCORD_BOT_APPLICATION_ID" := PyStr "42" ]}.

Definition committee : Role := mkRole 10 "Committee" "<@&10>".
Definition guest : Role := mkRole 11 "Guest" "<@&11>".
Definition former_committee : Role := mkRole 12 "Committee" "<@&12>".
Definition welcome : TextChannel := mkTextChannel 20 "welcome" "<#20>".
Definition rules : TextChannel := mkTextChannel 21 "rules" "<#21>".
Definition general : TextChannel := mkTextChannel 22 "general" "<#22>".

Definition guild : Guild := mkGuild 7 [committee; guest] [welcome; rules; general] (Some 21).

(** A bot connected to [guild] whose cache is as [__init__] left it. *)
Definition fresh_bot : TeXBot := mkTeXBot (attrs new) [guild].

(** The same bot once the guild was stored in its cache. *)
Definition ready_bot : TeXBot := snd (setattr "_css_guild" (OGuild guild) fresh_bot).

(** A bot whose committee slot refers to a role that the guild no longer has. *)
Definition outdated_bot : TeXBot :=
  snd (setattr "_committee_role" (ORole former_committee) ready_bot).

Definition ping_context : Cogs.ApplicationContext :=
  Cogs.mkContext (Cogs.mkCommand (Some "ping") "ping").

Definition world : Cogs.World TeXBot := Cogs.mkWorld ready_bot false [] [].

(** A bot with awaited accessors that answers with [guild] and its roles. *)
Definition awaited_bot : Cogs.AwaitableBot :=
  Cogs.mkAwaitableBot (Return (OGuild guild)) (Return (ORole committee)) (Return (ORole guest)).

Definition awaited_world : Cogs.World Cogs.AwaitableBot :=
  Cogs.mkWorld awaited_bot false [] [].

Definition str_exn (e : Exn) : string :=
  match e with
  | GuildDoesNotExist _ => "Server with ID does not exist."
  | StrikeTrackingError m | ImproperlyConfigured m | TypeError m => m
  | KeyError k | AttributeError k => k
  end.

Definition quoted (s : string) : string := "'" ++ s ++ "'".

(** The code points for which [str.isspace] holds: the ASCII whitespace,
    the separators U+001C to U+001F, U+0085, U+00A0, U+1680, U+2000 to
    U+200A, U+2028, U+2029, U+202F, U+205F and U+3000. *)
Definition isspace (c : N) : bool :=
  ((9 <=? c) && (c <=? 13) || (28 <=? c) && (c <=? 32)
   || (c =? 133) || (c =? 160) || (c =? 5760)
   || (8192 <=? c) && (c <=? 8202)
   || (c =? 8232) || (c =? 8233) || (c =? 8239) || (c =? 8287) || (c =? 12288))%N.

(** A table of decimal digits: the ASCII digits and, of the other scripts,
    the Arabic-Indic digits U+0660 to U+0669. *)
Definition decimal (c : N) : bool :=
  ((48 <=? c) && (c <=? 57) || (1632 <=? c) && (c <=? 1641))%N.

End Examples.


(** ** Vocabulary of the statements *)

(** Some connected guild bears the configured id. *)
Definition guild_connected (self : TeXBot) (wanted : PyVal) : Prop :=
  exists g, In g (guilds self) /\ int_eq (guild_id g) wanted = true.

(** The id of the object [o] is one of [ids]. *)
Definition id_occurs (ids : list Z) (o : PyObj) : Prop :=
  exists i, attr_id o = Return i /\ In i ids.

(** A cached reference is out of date with respect to the ids that the guild
    currently has: it is [None], or its id is not among them. *)
Definition stale (ids : list Z) (cached : PyObj) : Prop :=
  cached = ONone \/ ~ id_occurs ids cached.

(** The bot after the assignment [self.<slot> = o]. *)
Definition assigned (slot : string) (o : PyObj) (self : TeXBot) : TeXBot :=
  mkTeXBot (<[slot := o]> (attrs self)) (guilds self).

(** What a refresh of the welcome channel fetches from the guild [g]. *)
Definition welcome_of (g : Guild) : PyObj :=
  match rules_channel g with
  | Some c => OChannel c
  | None => of_channel (get (text_channels g) (fun c => String.eqb (channel_name c) "welcome"))
  end.

(** The test that decides whether an accessor keeps its cached reference:
    the reference has an id and [discord.utils.get] finds that id. *)
Definition fresh_test {A : Type} (l : list A) (id_of : A -> Z) (cached : PyObj) : bool :=
  match attr_id cached with
  | Return i => negb (is_none (get l (fun x => id_of x =? i)))
  | Raise _ => false
  end.

(** Code that adds no attribute to the bot beyond the names in [slots]. *)
Definition grows_within {A : Type} (slots : gset string) (m : M TeXBot A) : Prop :=
  forall self, dom (attrs (snd (m self))) ⊆ dom (attrs self) ∪ slots.

(** How [send_error] names the committee when the accessor answers [o]. *)
Definition mention_of (o : PyObj) : string :=
  match o with
  | ORole r => role_mention r
  | _ => "committee"
  end.

(** The reply that [send_error] builds once its opening line is known. *)
Definition reply_text (isspace decimal : N -> bool) (opening : string)
    (ctx : Cogs.ApplicationContext) (message : option text) : text :=
  let reply :=
    match Cogs.ERROR_ACTIVITIES !! Cogs.command_name ctx with
    | Some activity => opening ++ " when trying to " ++ activity
    | None => opening
    end in
  let reply := (if Text.nonempty message then reply ++ ":" else reply ++ ".") ++ ":warning:" in
  if Text.nonempty message then
    (text_of reply ++ text_of Str.newline ++ text_of "`"
       ++ Re.sub (Re.mention_pattern decimal) Cogs.backticked
            (Text.strip isspace (default [] message))
       ++ text_of "`")%list
  else text_of reply.

(** Every character of [s] satisfies [ok]. *)
Fixpoint every (ok : ascii -> Prop) (s : string) : Prop :=
  match s with
  | EmptyString => True
  | String c rest => ok c /\ every ok rest
  end.

(** On the ASCII range, the table [decimal] holds the digits 0 to 9 only. *)
Definition ascii_digits (decimal : N -> bool) : Prop :=
  forall c, (c < 128)%N -> decimal c = ((48 <=? c) && (c <=? 57))%N.



(** * Further code of the two modules *)

From Stdlib Require Import DecimalString.

(** Code that leaves the connected guilds and every attribute other than
    [slot] as they were. *)
Definition touches_only {A : Type} (slot : string) (m : M TeXBot A) : Prop :=
  forall self,
    guilds (snd (m self)) = guilds self
    /\ forall k, k <> slot -> attrs (snd (m self)) !! k = attrs self !! k.

(** The text of the record that [send_error] hands to [logging.error]. *)
Definition log_text (str_exn : Exn -> string) (error_code : option string)
    (ctx : Cogs.ApplicationContext) (logging_message : Cogs.LoggingMessage) : string :=
  (if Str.nonempty error_code then default "" error_code ++ " " else "")
    ++ "(" ++ Cogs.command_name ctx ++ ") "
    ++ Cogs.logging_message_str str_exn logging_message.

(** The texts that a pattern denotes. *)
Fixpoint lang (r : Re.regex) (m : text) : Prop :=
  match r with
  | Re.Lit c => m = [c]
  | Re.Class p => exists c, p c = true /\ m = [c]
  | Re.Seq r1 r2 => exists m1 m2, m = (m1 ++ m2)%list /\ lang r1 m1 /\ lang r2 m2
  | Re.Alt r1 r2 => lang r1 m \/ lang r2 m
  | Re.Opt r1 => m = [] \/ lang r1 m
  | Re.Plus p => m <> [] /\ Forall (fun c => p c = true) m
  end.

(** The texts that the mention pattern is meant to catch and the two further
    forms that it catches as well. *)
Definition wrapped_form (decimal : N -> bool) (tok : text) : Prop :=
  exists sigil digits,
    In sigil [""; "@"; "&"; "#"; "@&"; "@#"]
    /\ digits <> []
    /\ Forall (fun c => decimal c = true) digits
    /\ tok = (text_of "<" ++ text_of sigil ++ digits ++ text_of ">")%list.

(** ** [cogs/_utils.py], continued: the channel autocomplete *)

Module Autocomplete.

(** [discord.OptionChoice(name=..., value=...)]. *)
Record OptionChoice : Type := mkChoice {
  choice_name : string;
  choice_value : string
}.

(** An autocomplete context: the id of [ctx.interaction.user], when there is
    a user, and the text typed so far, [ctx.value]. *)
Record AutocompleteContext : Type := mkAutocomplete {
  interaction_user : option Z;
  value : text
}.

(** What the autocomplete uses of the bot class: the attribute read
    [ctx.bot.css_guild] and the whole expression [await ctx.bot.guest_role]. *)
Class GuildBotLike (B : Type) : Type := {
  bot_css_guild : gmap string PyVal -> M B PyObj;
  bot_guest_role : gmap string PyVal -> M B PyObj
}.

(** The class of [utils.py]: its [guest_role] is a plain property, so the
    property runs and the [await] that is applied to its value fails. *)
#[global] Instance TeXBot_GuildBotLike : GuildBotLike TeXBot := {
  bot_css_guild := css_guild;
  bot_guest_role settings := o ← guest_role settings; Cogs.await_object o
}.

#[global] Instance AwaitableBot_GuildBotLike : GuildBotLike Cogs.AwaitableBot := {
  bot_css_guild settings := fun b => (Cogs.awaited_css_guild b, b);
  bot_guest_role settings := fun b => (Cogs.awaited_guest_role b, b)
}.

(** Python's [str] on an integer. *)
Definition str_int (z : Z) : string := NilZero.string_of_int (Z.to_int z).

(** No character of the text is a line feed. *)
Fixpoint single_line (s : text) : bool :=
  match s with
  | [] => true
  | c :: rest => negb (N.eqb c 10) && single_line rest
  end.

(** [re.match(r"\A#.*\Z", value)]: a "#", then anything but a line feed, up
    to the end of the text. *)
Definition hash_query (value : text) : bool :=
  match value with
  | c :: rest => N.eqb c 35 && single_line rest
  | [] => false
  end.

Section WithBot.

Context {B : Type} `{GuildBotLike B}.

Variable settings : gmap string PyVal.

(** The library's members: [guild.get_member(id)] and
    [channel.permissions_for(...)], which takes a member or a role (here:
    whatever object the guest-role accessor returned). *)
Variable Member : Type.
Variable get_member : Guild -> Z -> option Member.
Variable permissions_for : TextChannel -> PyObj + Member -> Permissions.

Definition attr_get_member (o : PyObj) (user_id : Z) : Result (option Member) :=
  match o with
  | OGuild g => Return (get_member g user_id)
  | _ => Raise (AttributeError "get_member")
  end.

(** [channel.permissions_for(limiter).is_superset(
    discord.Permissions(send_messages=True, view_channel=True))]. *)
Definition may_post (limiter : PyObj + Member) (channel : TextChannel) : bool :=
  bool_decide (({[ "send_messages"; "view_channel" ]} : gset string)
                 ⊆ permissions_for channel limiter).

(** The result is a Python set of freshly built choices, hence without order
    and without merging; it is listed here in the order of the channels. *)
Definition autocomplete_get_text_channels (ctx : AutocompleteContext)
    : M B (list OptionChoice) :=
  match interaction_user ctx with
  | None => mret []
  | Some user_id =>
      fun b =>
        match bot_css_guild settings b with
        | (Raise e, b') =>
            if GuildDoesNotExist_type e then (Return [], b') else (Raise e, b')
        | (Return guild, b') =>
            (channel_permissions_limiter ← bot_guest_role settings;
             if negb (obj_truthy channel_permissions_limiter) then mret []
             else
               interaction_member ← lift_result (attr_get_member guild user_id);
               let channel_permissions_limiter :=
                 match interaction_member with
                 | Some member => inr member
                 | None => inl channel_permissions_limiter
                 end in
               channels ← lift_result (attr_text_channels guild);
               if negb (Text.nonempty (Some (value ctx))) || hash_query (value ctx) then
                 mret (map (fun channel =>
                              mkChoice ("#" ++ channel_name channel)
                                (str_int (channel_id channel)))
                         (filter (fun channel =>
                                    may_post channel_permissions_limiter channel = true)
                            channels))
               else
                 mret (map (fun channel =>
                              mkChoice (channel_name channel)
                                (str_int (channel_id channel)))
                         (filter (fun channel =>
                                    may_post channel_permissions_limiter channel = true)
                            channels))) b'
        end
  end.

End WithBot.

End Autocomplete.

(** ** Further concrete configurations *)

Module MoreExamples.

(** Permissions under which the rules channel is read-only. *)
Definition permissions_for (c : TextChannel) (limiter : PyObj + unit) : Permissions :=
  if channel_id c =? 21 then {[ "view_channel" ]}
  else {[ "view_channel"; "send_messages"; "embed_links" ]}.

Definition no_member (g : Guild) (user_id : Z) : option unit := None.

Definition typing_hash : Autocomplete.AutocompleteContext :=
  Autocomplete.mkAutocomplete (Some 5) (text_of "#ge").

(** The bot of the examples once its guest role was looked up. *)
Definition bot_with_guest : TeXBot :=
  assigned "_guest_role" (ORole Examples.guest) Examples.ready_bot.

(** A coroutine that fails while tracking a strike. *)
Definition failing_strike (self : Cogs.Instance) (args : unit)
    : M (Cogs.World TeXBot) unit :=
  raise (StrikeTrackingError "Strike could not be tracked.").

(** A coroutine that reads the guild under empty settings. *)
Definition misconfigured (self : Cogs.Instance) (args : unit)
    : M (Cogs.World TeXBot) PyObj :=
  Cogs.on_bot (css_guild ∅).

End MoreExamples.


(** * Properties *)

(** ** The guild accessor *)

Section CacheFacts.

Variable settings : gmap string PyVal.

Lemma get_None_iff {A : Type} (l : list A) (p : A -> bool) :
  get l p = None <-> forall x, In x l -> p x = false.
Proof.
  unfold get. split.
  - intros Hnone x Hx. exact (find_none p l Hnone x Hx).
  - induction l as [|a l IH]; intros Hall; [reflexivity|].
    simpl. rewrite (Hall a (or_introl eq_refl)). apply IH.
    intros x Hx. apply Hall. now right.
Qed.

Lemma get_Some_In {A : Type} (l : list A) (p : A -> bool) (x : A) :
  get l p = Some x -> In x l /\ p x = true.
Proof. unfold get. apply find_some. Qed.

Lemma is_none_get_false {A : Type} (l : list A) (p : A -> bool) :
  is_none (get l p) = false <-> exists x, In x l /\ p x = true.
Proof.
  split.
  - destruct (get l p) as [x|] eqn:E; [|discriminate].
    intros _. exists x. now apply get_Some_In.
  - intros [x [Hx Hp]]. destruct (get l p) eqn:E; [reflexivity|].
    rewrite get_None_iff in E. rewrite (E x Hx) in Hp. discriminate.
Qed.

Lemma css_guild_run (self : TeXBot) (cached : PyObj) (wanted : PyVal) :
  attrs self !! "_css_guild" = Some cached ->
  settings !! "DISCORD_GUILD_ID" = Some wanted ->
  css_guild settings self =
    (if obj_truthy cached
        && negb (is_none (get (guilds self) (fun g => int_eq (guild_id g) wanted)))
     then Return cached else Raise (GuildDoesNotExist wanted), self).
Proof.
  intros Hc Hw.
  unfold css_guild, mbind, M_bind, getattr, gets, lift_result, getitem, raise, mret, M_ret.
  rewrite Hc, Hw.
  destruct (obj_truthy cached); simpl; [|reflexivity].
  destruct (get _ _); simpl; rewrite ?Hc; reflexivity.
Qed.

(** The accessor never writes: whatever it answers, the bot is as before. *)
Lemma css_guild_pure (self : TeXBot) : snd (css_guild settings self) = self.
Proof.
  unfold css_guild, mbind, M_bind, getattr, gets, lift_result, getitem, raise, mret, M_ret.
  destruct (attrs self !! "_css_guild") as [cached|] eqn:Hc; [|reflexivity].
  destruct (obj_truthy cached); simpl.
  - destruct (settings !! "DISCORD_GUILD_ID"); simpl; [|reflexivity].
    destruct (is_none _); simpl; [reflexivity|]. now rewrite Hc.
  - destruct (settings !! "DISCORD_GUILD_ID"); reflexivity.
Qed.

Lemma obj_truthy_true (o : PyObj) : obj_truthy o = true <-> o <> ONone.
Proof. destruct o; simpl; split; congruence. Qed.

(** C1, as the code has it: [css_guild] only reads.  It answers with the
    cached [_css_guild] object when that is not [None] and some connected
    guild bears the id [settings["DISCORD_GUILD_ID"]]; it raises
    [GuildDoesNotExist] exactly when the cache is empty or no connected guild
    bears that id.  In neither case is the cache written. *)
Theorem css_guild_answers_from_cache (self : TeXBot) (cached : PyObj) (wanted : PyVal) :
  attrs self !! "_css_guild" = Some cached ->
  settings !! "DISCORD_GUILD_ID" = Some wanted ->
  snd (css_guild settings self) = self
  /\ (cached <> ONone /\ guild_connected self wanted
      -> fst (css_guild settings self) = Return cached)
  /\ (fst (css_guild settings self) = Raise (GuildDoesNotExist wanted)
      <-> cached = ONone \/ ~ guild_connected self wanted).
Proof.
  intros Hc Hw. rewrite (css_guild_run self cached wanted Hc Hw). simpl.
  split; [reflexivity|].
  destruct (is_none (get (guilds self) (fun g => int_eq (guild_id g) wanted))) eqn:Hg.
  - assert (Hno : ~ guild_connected self wanted).
    { intros Hyes. apply is_none_get_false in Hyes. congruence. }
    rewrite andb_false_r. split; [tauto|]. split; auto.
  - assert (Hyes : guild_connected self wanted) by (now apply is_none_get_false).
    rewrite andb_true_r. destruct (obj_truthy cached) eqn:Ht.
    + apply obj_truthy_true in Ht. split; [reflexivity|].
      split; [discriminate|]. intros [?|?]; contradiction.
    + assert (cached = ONone) by (destruct cached; simpl in Ht; congruence).
      subst cached. split; [intros [? _]; congruence|]. split; auto.
Qed.

End CacheFacts.

(** The configuration of the examples: a guild is connected and bears the
    configured id, and the cache holds it. *)
Lemma css_guild_answers_from_cache_witness :
  attrs Examples.ready_bot !! "_css_guild" = Some (OGuild Examples.guild)
  /\ fst (css_guild Examples.settings Examples.ready_bot) = Return (OGuild Examples.guild).
Proof.
  split; [reflexivity|].
  apply (css_guild_answers_from_cache Examples.settings Examples.ready_bot
           (OGuild Examples.guild) (PyInt 7)); [reflexivity | reflexivity |].
  split; [discriminate|].
  exists Examples.guild. split; [left; reflexivity | reflexivity].
Defined.

(** C1, as stated, fails: the guild with the configured id is connected, the
    cache is as [__init__] left it, and the accessor raises instead of
    repopulating it. *)
Lemma css_guild_does_not_repopulate :
  guild_connected Examples.fresh_bot (PyInt 7)
  /\ Examples.settings !! "DISCORD_GUILD_ID" = Some (PyInt 7)
  /\ attrs Examples.fresh_bot !! "_css_guild" = Some ONone
  /\ css_guild Examples.settings Examples.fresh_bot
     = (Raise (GuildDoesNotExist (PyInt 7)), Examples.fresh_bot).
Proof.
  split; [exists Examples.guild; split; [left; reflexivity | reflexivity]|].
  repeat split; reflexivity.
Qed.

(** ** The role and channel accessors *)

Section AccessorFacts.

Variable settings : gmap string PyVal.

Lemma css_guild_pair (self : TeXBot) (o : PyObj) :
  fst (css_guild settings self) = Return o -> css_guild settings self = (Return o, self).
Proof.
  intros Hfst. rewrite (surjective_pairing (css_guild settings self)).
  now rewrite Hfst, css_guild_pure.
Qed.

Lemma is_none_get_id {A : Type} (l : list A) (id_of : A -> Z) (i : Z) :
  is_none (get l (fun x => id_of x =? i)) = false <-> In i (map id_of l).
Proof.
  rewrite is_none_get_false, in_map_iff. split.
  - intros [x [Hx Hi]]. exists x. apply Z.eqb_eq in Hi. auto.
  - intros [x [Hi Hx]]. exists x. split; [assumption|]. now apply Z.eqb_eq.
Qed.

Lemma fresh_test_spec {A : Type} (l : list A) (id_of : A -> Z) (cached : PyObj) :
  fresh_test l id_of cached = false <-> stale (map id_of l) cached.
Proof.
  unfold fresh_test, stale, id_occurs. destruct (attr_id cached) as [i|e] eqn:Hid.
  - rewrite negb_false_iff. split.
    + intros Hnone. right. intros [j [Hj Hin]]. injection Hj as <-.
      apply is_none_get_id in Hin. congruence.
    + intros [->|Hno]; [discriminate|].
      destruct (is_none _) eqn:E; [reflexivity|].
      exfalso. apply Hno. exists i. split; [reflexivity|]. now apply is_none_get_id.
  - split; [|reflexivity]. intros _. right. intros [j [Hj _]]. discriminate.
Qed.

Lemma role_property_run (slot name : string) (self : TeXBot) (g : Guild) (cached : PyObj) :
  fst (css_guild settings self) = Return (OGuild g) ->
  attrs self !! slot = Some cached ->
  role_property settings slot name self =
    if fresh_test (roles g) role_id cached then (Return cached, self)
    else
      let fetched := of_role (get (roles g) (fun r => String.eqb (role_name r) name)) in
      (Return fetched, assigned slot fetched self).
Proof.
  intros Hg Hc. apply css_guild_pair in Hg.
  unfold role_property, fresh_test, mbind, M_bind, getattr, lift_result, mret, M_ret.
  rewrite Hc. destruct cached as [|g'|r|c]; simpl; rewrite Hg; simpl; rewrite ?Hc; simpl.
  - now rewrite lookup_insert_eq.
  - destruct (is_none _); simpl; rewrite ?Hg; simpl; rewrite ?Hc, ?lookup_insert_eq; reflexivity.
  - destruct (is_none _); simpl; rewrite ?Hg; simpl; rewrite ?Hc, ?lookup_insert_eq; reflexivity.
  - destruct (is_none _); simpl; rewrite ?Hg; simpl; rewrite ?Hc, ?lookup_insert_eq; reflexivity.
Qed.

Lemma channel_is_stale_run (slot : string) (self : TeXBot) (g : Guild) (cached : PyObj) :
  fst (css_guild settings self) = Return (OGuild g) ->
  attrs self !! slot = Some cached ->
  channel_is_stale settings slot self
  = (Return (negb (fresh_test (text_channels g) channel_id cached)), self).
Proof.
  intros Hg Hc. apply css_guild_pair in Hg.
  unfold channel_is_stale, fresh_test, mbind, M_bind, getattr, lift_result, mret, M_ret.
  rewrite Hc. destruct cached as [|g'|r|c]; simpl; [reflexivity| | |];
    rewrite Hg; simpl; rewrite Hc; simpl; now rewrite negb_involutive.
Qed.

Lemma channel_property_run (slot name : string) (self : TeXBot) (g : Guild) (cached : PyObj) :
  fst (css_guild settings self) = Return (OGuild g) ->
  attrs self !! slot = Some cached ->
  channel_property settings slot name self =
    if fresh_test (text_channels g) channel_id cached then (Return cached, self)
    else
      let fetched :=
        of_channel (get (text_channels g) (fun c => String.eqb (channel_name c) name)) in
      (Return fetched, assigned slot fetched self).
Proof.
  intros Hg Hc. unfold channel_property, mbind, M_bind at 1.
  rewrite (channel_is_stale_run slot self g cached Hg Hc).
  apply css_guild_pair in Hg.
  destruct (fresh_test _ _ cached); simpl.
  - unfold mbind, M_bind, mret, M_ret, getattr. now rewrite Hc.
  - unfold mbind, M_bind, mret, M_ret, getattr, lift_result. rewrite Hg. simpl.
    now rewrite lookup_insert_eq.
Qed.

Lemma welcome_channel_run (self : TeXBot) (g : Guild) (cached : PyObj) :
  fst (css_guild settings self) = Return (OGuild g) ->
  attrs self !! "_welcome_channel" = Some cached ->
  welcome_channel settings self =
    if fresh_test (text_channels g) channel_id cached then (Return cached, self)
    else (Return (welcome_of g), assigned "_welcome_channel" (welcome_of g) self).
Proof.
  intros Hg Hc. unfold welcome_channel, mbind, M_bind at 1.
  rewrite (channel_is_stale_run _ self g cached Hg Hc).
  apply css_guild_pair in Hg.
  destruct (fresh_test _ _ cached); simpl.
  - unfold mbind, M_bind, mret, M_ret, getattr. now rewrite Hc.
  - unfold welcome_of, mbind, M_bind, mret, M_ret, getattr, lift_result. rewrite Hg. simpl.
    destruct (rules_channel g); simpl; rewrite ?Hg; simpl; now rewrite lookup_insert_eq.
Qed.

End AccessorFacts.

Section AccessorTheorems.

Variable settings : gmap string PyVal.

Lemma stale_dec_fresh {A : Type} (l : list A) (id_of : A -> Z) (cached : PyObj) :
  ~ stale (map id_of l) cached -> fresh_test l id_of cached = true.
Proof.
  intros Hfresh. destruct (fresh_test l id_of cached) eqn:E; [reflexivity|].
  exfalso. apply Hfresh. now apply fresh_test_spec.
Qed.

(** C3: each of the six name-based accessors, on a bot whose guild accessor
    answers with the guild [g]: when its cached reference is [None] or bears
    an id that [g] no longer has, it looks its fixed name up among the roles
    (or text channels) of [g], stores what it found, the role (or channel)
    or [None], in its slot and returns it; otherwise it returns the cached
    object and leaves the bot as it was. *)
Theorem named_accessors_refresh_when_stale (self : TeXBot) (g : Guild) :
  fst (css_guild settings self) = Return (OGuild g) ->
  (forall acc slot name cached,
      In (acc, slot, name) (role_accessors settings) ->
      attrs self !! slot = Some cached ->
      let by_name := get (roles g) (fun r => String.eqb (role_name r) name) in
      (stale (map role_id (roles g)) cached ->
       exists fetched,
         acc self
         = (Return fetched, mkTeXBot (<[slot := fetched]> (attrs self)) (guilds self))
         /\ (forall r, by_name = Some r -> fetched = ORole r)
         /\ (by_name = None -> fetched = ONone))
      /\ (~ stale (map role_id (roles g)) cached -> acc self = (Return cached, self)))
  /\ (forall acc slot name cached,
         In (acc, slot, name) (named_channel_accessors settings) ->
         attrs self !! slot = Some cached ->
         let by_name := get (text_channels g) (fun c => String.eqb (channel_name c) name) in
         (stale (map channel_id (text_channels g)) cached ->
          exists fetched,
            acc self
            = (Return fetched, mkTeXBot (<[slot := fetched]> (attrs self)) (guilds self))
            /\ (forall c, by_name = Some c -> fetched = OChannel c)
            /\ (by_name = None -> fetched = ONone))
         /\ (~ stale (map channel_id (text_channels g)) cached ->
             acc self = (Return cached, self))).
Proof.
  intros Hg. split.
  - intros acc slot name cached Hin Hc by_name.
    assert (Hrun : acc = role_property settings slot name).
    { simpl in Hin. destruct Hin as [E|[E|[E|[E|[]]]]]; now inversion E. }
    subst acc. rewrite (role_property_run settings slot name self g cached Hg Hc).
    split; intros Hs.
    + apply fresh_test_spec in Hs. rewrite Hs. fold by_name.
      exists (of_role by_name). split; [reflexivity|].
      split; [now intros r ->|now intros ->].
    + apply stale_dec_fresh in Hs. now rewrite Hs.
  - intros acc slot name cached Hin Hc by_name.
    assert (Hrun : acc = channel_property settings slot name).
    { simpl in Hin. destruct Hin as [E|[E|[]]]; now inversion E. }
    subst acc. rewrite (channel_property_run settings slot name self g cached Hg Hc).
    split; intros Hs.
    + apply fresh_test_spec in Hs. rewrite Hs. fold by_name.
      exists (of_channel by_name). split; [reflexivity|].
      split; [now intros c ->|now intros ->].
    + apply stale_dec_fresh in Hs. now rewrite Hs.
Qed.


(** C5: on a bot whose guild accessor answers with the guild [g], the welcome
    accessor with a stale cache stores and returns the rules channel of [g]
    when there is one, else the text channel named "welcome", else [None];
    with a valid cache it returns the cached object and changes nothing. *)
Theorem welcome_channel_prefers_rules_channel (self : TeXBot) (g : Guild) (cached : PyObj) :
  fst (css_guild settings self) = Return (OGuild g) ->
  attrs self !! "_welcome_channel" = Some cached ->
  let by_name := get (text_channels g) (fun c => String.eqb (channel_name c) "welcome") in
  (stale (map channel_id (text_channels g)) cached ->
   exists fetched,
     welcome_channel settings self
     = (Return fetched, assigned "_welcome_channel" fetched self)
     /\ (forall c, rules_channel g = Some c -> fetched = OChannel c)
     /\ (forall c, rules_channel g = None -> by_name = Some c -> fetched = OChannel c)
     /\ (rules_channel g = None -> by_name = None -> fetched = ONone))
  /\ (~ stale (map channel_id (text_channels g)) cached ->
      welcome_channel settings self = (Return cached, self)).
Proof.
  intros Hg Hc by_name. rewrite (welcome_channel_run settings self g cached Hg Hc).
  split; intros Hs.
  - apply fresh_test_spec in Hs. rewrite Hs. exists (welcome_of g).
    split; [reflexivity|]. unfold welcome_of. fold by_name.
    repeat split.
    + now intros c ->.
    + now intros c -> ->.
    + now intros -> ->.
  - apply stale_dec_fresh in Hs. now rewrite Hs.
Qed.

End AccessorTheorems.


Lemma named_accessors_refresh_when_stale_witness :
  fst (css_guild Examples.settings Examples.outdated_bot) = Return (OGuild Examples.guild)
  /\ committee_role Examples.settings Examples.outdated_bot
     = (Return (ORole Examples.committee),
        mkTeXBot (<["_committee_role" := ORole Examples.committee]>
                    (attrs Examples.outdated_bot)) [Examples.guild])
  /\ general_channel Examples.settings Examples.outdated_bot
     = (Return (OChannel Examples.general),
        mkTeXBot (<["_general_channel" := OChannel Examples.general]>
                    (attrs Examples.outdated_bot)) [Examples.guild])
  /\ roles_channel Examples.settings Examples.outdated_bot
     = (Return ONone,
        mkTeXBot (<["_roles_channel" := ONone]> (attrs Examples.outdated_bot))
          [Examples.guild]).
Proof.
  assert (Hg : fst (css_guild Examples.settings Examples.outdated_bot)
               = Return (OGuild Examples.guild)) by reflexivity.
  split; [exact Hg|].
  destruct (named_accessors_refresh_when_stale Examples.settings Examples.outdated_bot
              Examples.guild Hg) as [Hroles Hchannels].
  split; [|split].
  - destruct (Hroles (committee_role Examples.settings) "_committee_role" "Committee"
                (ORole Examples.former_committee)) as [Hstale _].
    + left. reflexivity.
    + reflexivity.
    + destruct Hstale as [fetched [Hrun [Hsome _]]].
      * right. intros [i [Hi Hin]]. injection Hi as <-. simpl in Hin.
        destruct Hin as [E|[E|[]]]; discriminate.
      * rewrite Hrun, (Hsome Examples.committee eq_refl). reflexivity.
  - destruct (Hchannels (general_channel Examples.settings) "_general_channel" "general"
                ONone) as [Hstale _].
    + right. left. reflexivity.
    + reflexivity.
    + destruct Hstale as [fetched [Hrun [Hsome _]]].
      * left. reflexivity.
      * rewrite Hrun, (Hsome Examples.general eq_refl). reflexivity.
  - destruct (Hchannels (roles_channel Examples.settings) "_roles_channel" "roles"
                ONone) as [Hstale _].
    + left. reflexivity.
    + reflexivity.
    + destruct Hstale as [fetched [Hrun [_ Hnone]]].
      * left. reflexivity.
      * rewrite Hrun, (Hnone eq_refl). reflexivity.
Defined.

(** C3 as stated fails on a bot as [__init__] left it, connected to the
    configured guild, which has a role named "Committee" and a channel named
    "general": the cached references are [None], and the accessors raise
    [GuildDoesNotExist] instead of fetching, and store nothing. *)
Lemma named_accessors_need_the_guild :
  In Examples.guild (guilds Examples.fresh_bot)
  /\ attrs Examples.fresh_bot !! "_committee_role" = Some ONone
  /\ get (roles Examples.guild) (fun r => String.eqb (role_name r) "Committee")
     = Some Examples.committee
  /\ committee_role Examples.settings Examples.fresh_bot
     = (Raise (GuildDoesNotExist (PyInt 7)), Examples.fresh_bot)
  /\ attrs Examples.fresh_bot !! "_general_channel" = Some ONone
  /\ get (text_channels Examples.guild) (fun c => String.eqb (channel_name c) "general")
     = Some Examples.general
  /\ general_channel Examples.settings Examples.fresh_bot
     = (Raise (GuildDoesNotExist (PyInt 7)), Examples.fresh_bot).
Proof.
  repeat split; try reflexivity. left. reflexivity.
Qed.

Lemma welcome_channel_prefers_rules_channel_witness :
  fst (css_guild Examples.settings Examples.ready_bot) = Return (OGuild Examples.guild)
  /\ exists fetched,
      welcome_channel Examples.settings Examples.ready_bot
      = (Return fetched, assigned "_welcome_channel" fetched Examples.ready_bot)
      /\ fetched = OChannel Examples.rules.
Proof.
  assert (Hg : fst (css_guild Examples.settings Examples.ready_bot)
               = Return (OGuild Examples.guild)) by reflexivity.
  split; [exact Hg|].
  destruct (welcome_channel_prefers_rules_channel Examples.settings Examples.ready_bot
              Examples.guild ONone Hg eq_refl) as [Hstale _].
  destruct (Hstale (or_introl eq_refl)) as [fetched [Hrun [Hrules _]]].
  exists fetched. split; [exact Hrun|]. apply Hrules. reflexivity.
Defined.

(** C5 as stated fails on a bot as [__init__] left it, connected to the
    configured guild, whose rules channel is set: the cached welcome channel
    is [None], and the accessor raises [GuildDoesNotExist] instead of caching
    and returning the rules channel. *)
Lemma welcome_channel_needs_the_guild :
  In Examples.guild (guilds Examples.fresh_bot)
  /\ attrs Examples.fresh_bot !! "_welcome_channel" = Some ONone
  /\ rules_channel Examples.guild = Some Examples.rules
  /\ welcome_channel Examples.settings Examples.fresh_bot
     = (Raise (GuildDoesNotExist (PyInt 7)), Examples.fresh_bot).
Proof.
  repeat split; try reflexivity. left. reflexivity.
Qed.

(** ** No accessor hands out a reference that the guild does not back *)

Section NoStaleReference.

Variable settings : gmap string PyVal.

Lemma role_property_returns (slot name : string) (self self' : TeXBot) (o : PyObj) :
  role_property settings slot name self = (Return o, self') ->
  exists g cached,
    fst (css_guild settings self) = Return (OGuild g) /\ attrs self !! slot = Some cached.
Proof.
  unfold role_property, mbind, M_bind, getattr, lift_result, mret, M_ret.
  destruct (attrs self !! slot) as [cached|] eqn:Hc; [|discriminate].
  pose proof (css_guild_pure settings self) as Hpure.
  destruct (css_guild settings self) as [[[|g| |]|e] s'] eqn:Hcss; simpl in Hpure; subst s';
    try (destruct cached; simpl; rewrite ?Hcss; simpl; discriminate).
  intros _. exists g, cached. split; reflexivity.
Qed.

Lemma channel_property_returns (slot name : string) (self self' : TeXBot) (o : PyObj) :
  channel_property settings slot name self = (Return o, self') ->
  exists g cached,
    fst (css_guild settings self) = Return (OGuild g) /\ attrs self !! slot = Some cached.
Proof.
  unfold channel_property, channel_is_stale, mbind, M_bind, getattr, lift_result, mret, M_ret.
  destruct (attrs self !! slot) as [cached|] eqn:Hc; [|discriminate].
  pose proof (css_guild_pure settings self) as Hpure.
  destruct (css_guild settings self) as [[[|g| |]|e] s'] eqn:Hcss; simpl in Hpure; subst s';
    try (destruct cached; simpl; rewrite ?Hcss; simpl; discriminate).
  intros _. exists g, cached. split; reflexivity.
Qed.

Lemma welcome_channel_returns (self self' : TeXBot) (o : PyObj) :
  welcome_channel settings self = (Return o, self') ->
  exists g cached,
    fst (css_guild settings self) = Return (OGuild g)
    /\ attrs self !! "_welcome_channel" = Some cached.
Proof.
  unfold welcome_channel, channel_is_stale, mbind, M_bind, getattr, lift_result, mret, M_ret.
  destruct (attrs self !! "_welcome_channel") as [cached|] eqn:Hc; [|discriminate].
  pose proof (css_guild_pure settings self) as Hpure.
  destruct (css_guild settings self) as [[[|g| |]|e] s'] eqn:Hcss; simpl in Hpure; subst s';
    try (destruct cached; simpl; rewrite ?Hcss; simpl; discriminate).
  intros _. exists g, cached. split; reflexivity.
Qed.

(** Assigning to another slot does not change what the guild accessor says. *)
Lemma css_guild_assigned (slot : string) (o : PyObj) (self : TeXBot) :
  slot <> "_css_guild" ->
  fst (css_guild settings (assigned slot o self)) = fst (css_guild settings self).
Proof.
  intros Hne.
  unfold css_guild, assigned, mbind, M_bind, getattr, gets, lift_result, getitem, raise,
    mret, M_ret. simpl.
  rewrite lookup_insert_ne by assumption.
  destruct (attrs self !! "_css_guild") as [cached|] eqn:Hc; [|reflexivity].
  destruct (obj_truthy cached); simpl.
  - destruct (settings !! "DISCORD_GUILD_ID"); simpl; [|reflexivity].
    destruct (is_none _); simpl; [reflexivity|].
    rewrite lookup_insert_ne by assumption. now rewrite Hc.
  - destruct (settings !! "DISCORD_GUILD_ID"); reflexivity.
Qed.

Lemma fresh_test_occurs {A : Type} (l : list A) (id_of : A -> Z) (cached : PyObj) :
  fresh_test l id_of cached = true -> id_occurs (map id_of l) cached.
Proof.
  unfold fresh_test, id_occurs. destruct (attr_id cached) as [i|e]; [|discriminate].
  intros Hfound. exists i. split; [reflexivity|].
  apply is_none_get_id. now apply negb_true_iff.
Qed.

Lemma fetched_role_occurs (rs : list Role) (p : Role -> bool) :
  of_role (get rs p) <> ONone -> id_occurs (map role_id rs) (of_role (get rs p)).
Proof.
  destruct (get rs p) as [r|] eqn:E; simpl; [|congruence].
  intros _. exists (role_id r). split; [reflexivity|].
  apply in_map. now apply (get_Some_In rs p).
Qed.

Lemma fetched_channel_occurs (cs : list TextChannel) (p : TextChannel -> bool) :
  of_channel (get cs p) <> ONone -> id_occurs (map channel_id cs) (of_channel (get cs p)).
Proof.
  destruct (get cs p) as [c|] eqn:E; simpl; [|congruence].
  intros _. exists (channel_id c). split; [reflexivity|].
  apply in_map. now apply (get_Some_In cs p).
Qed.

Lemma welcome_of_occurs (g : Guild) :
  welcome_of g <> ONone -> id_occurs (map channel_id (text_channels g)) (welcome_of g).
Proof.
  unfold welcome_of, rules_channel.
  destruct (rules_channel_id g) as [i|].
  - destruct (get (text_channels g) (fun c => channel_id c =? i)) as [c|] eqn:E.
    + intros _. exists (channel_id c). split; [reflexivity|].
      apply in_map. now apply (get_Some_In _ _ _ E).
    + apply fetched_channel_occurs.
  - apply fetched_channel_occurs.
Qed.

(** C4: whatever object, other than [None], one of the seven role and channel
    accessors returns, the guild accessor of the bot as the call leaves it
    answers with a guild that has a role (for the role accessors) or a text
    channel (for the channel accessors) of that object's id. *)
Theorem accessors_return_current_references (self self' : TeXBot) (o : PyObj) :
  o <> ONone ->
  (forall acc slot name,
      In (acc, slot, name) (role_accessors settings) ->
      acc self = (Return o, self') ->
      exists g, fst (css_guild settings self') = Return (OGuild g)
                /\ id_occurs (map role_id (roles g)) o)
  /\ (forall acc slot name,
         In (acc, slot, name) (named_channel_accessors settings) ->
         acc self = (Return o, self') ->
         exists g, fst (css_guild settings self') = Return (OGuild g)
                   /\ id_occurs (map channel_id (text_channels g)) o)
  /\ (welcome_channel settings self = (Return o, self') ->
      exists g, fst (css_guild settings self') = Return (OGuild g)
                /\ id_occurs (map channel_id (text_channels g)) o).
Proof.
  intros Ho. split; [|split].
  - intros acc slot name Hin Hacc.
    assert (Hrun : acc = role_property settings slot name /\ slot <> "_css_guild").
    { simpl in Hin. destruct Hin as [E|[E|[E|[E|[]]]]]; inversion E; subst; (split; [reflexivity | discriminate]). }
    destruct Hrun as [-> Hslot].
    destruct (role_property_returns _ _ _ _ _ Hacc) as [g [cached [Hg Hc]]].
    rewrite (role_property_run settings slot name self g cached Hg Hc) in Hacc.
    exists g. destruct (fresh_test (roles g) role_id cached) eqn:Hfresh.
    + injection Hacc as <- <-. split; [assumption|]. now apply fresh_test_occurs.
    + simpl in Hacc. injection Hacc as <- <-. split.
      * now rewrite css_guild_assigned.
      * now apply fetched_role_occurs.
  - intros acc slot name Hin Hacc.
    assert (Hrun : acc = channel_property settings slot name /\ slot <> "_css_guild").
    { simpl in Hin. destruct Hin as [E|[E|[]]]; inversion E; subst; (split; [reflexivity | discriminate]). }
    destruct Hrun as [-> Hslot].
    destruct (channel_property_returns _ _ _ _ _ Hacc) as [g [cached [Hg Hc]]].
    rewrite (channel_property_run settings slot name self g cached Hg Hc) in Hacc.
    exists g. destruct (fresh_test (text_channels g) channel_id cached) eqn:Hfresh.
    + injection Hacc as <- <-. split; [assumption|]. now apply fresh_test_occurs.
    + simpl in Hacc. injection Hacc as <- <-. split.
      * now rewrite css_guild_assigned.
      * now apply fetched_channel_occurs.
  - intros Hacc.
    destruct (welcome_channel_returns _ _ _ Hacc) as [g [cached [Hg Hc]]].
    rewrite (welcome_channel_run settings self g cached Hg Hc) in Hacc.
    exists g. destruct (fresh_test (text_channels g) channel_id cached) eqn:Hfresh.
    + injection Hacc as <- <-. split; [assumption|]. now apply fresh_test_occurs.
    + injection Hacc as <- <-. split.
      * now rewrite css_guild_assigned.
      * now apply welcome_of_occurs.
Qed.

End NoStaleReference.

Lemma accessors_return_current_references_witness :
  committee_role Examples.settings Examples.outdated_bot
  = (Return (ORole Examples.committee),
     assigned "_committee_role" (ORole Examples.committee) Examples.outdated_bot)
  /\ exists g,
      fst (css_guild Examples.settings
             (assigned "_committee_role" (ORole Examples.committee) Examples.outdated_bot))
      = Return (OGuild g)
      /\ id_occurs (map role_id (roles g)) (ORole Examples.committee).
Proof.
  assert (Hrun : committee_role Examples.settings Examples.outdated_bot
                 = (Return (ORole Examples.committee),
                    assigned "_committee_role" (ORole Examples.committee)
                      Examples.outdated_bot)) by reflexivity.
  split; [exact Hrun|].
  assert (Hne : ORole Examples.committee <> ONone) by discriminate.
  destruct (accessors_return_current_references Examples.settings Examples.outdated_bot
              (assigned "_committee_role" (ORole Examples.committee) Examples.outdated_bot)
              (ORole Examples.committee) Hne) as [Hroles _].
  apply (Hroles (committee_role Examples.settings) "_committee_role" "Committee").
  - left. reflexivity.
  - exact Hrun.
Defined.

(** ** The size of the cache *)

Section CacheSize.

Variable slots : gset string.

Lemma grows_ret {A : Type} (a : A) : grows_within slots (mret a).
Proof. intros self. simpl. set_solver. Qed.

Lemma grows_bind {A C : Type} (m : M TeXBot A) (f : A -> M TeXBot C) :
  grows_within slots m -> (forall a, grows_within slots (f a)) ->
  grows_within slots (m ≫= f).
Proof.
  intros Hm Hf self. unfold mbind, M_bind.
  specialize (Hm self). destruct (m self) as [[a|e] s'] eqn:E; simpl in *.
  - specialize (Hf a s'). etrans; [exact Hf|].
    apply union_least; [exact Hm | apply union_subseteq_r].
  - exact Hm.
Qed.

Lemma grows_getattr (name : string) : grows_within slots (getattr name).
Proof. intros self. unfold getattr. destruct (attrs self !! name); simpl; set_solver. Qed.

Lemma grows_setattr (name : string) (o : PyObj) :
  name ∈ slots -> grows_within slots (setattr name o).
Proof.
  intros Hin self. simpl. rewrite dom_insert_L.
  apply union_least; [|apply union_subseteq_l].
  apply singleton_subseteq_l, elem_of_union_r, Hin.
Qed.

Lemma grows_lift {A : Type} (r : Result A) : grows_within slots (lift_result r).
Proof. intros self. simpl. set_solver. Qed.

Lemma grows_gets {A : Type} (f : TeXBot -> A) : grows_within slots (gets f).
Proof. intros self. simpl. set_solver. Qed.

Lemma grows_raise {A : Type} (e : Exn) : grows_within slots (raise (A := A) e).
Proof. intros self. simpl. set_solver. Qed.

Lemma grows_if {A : Type} (b : bool) (m1 m2 : M TeXBot A) :
  grows_within slots m1 -> grows_within slots m2 ->
  grows_within slots (if b then m1 else m2).
Proof. now destruct b. Qed.

End CacheSize.

Create HintDb grows.

#[local] Hint Resolve grows_ret grows_getattr grows_lift grows_gets grows_raise : grows.

Ltac grows :=
  repeat first
    [ apply grows_bind; [|intros ?]
    | apply grows_if
    | apply grows_setattr; set_solver
    | solve [auto with grows]
    | match goal with |- grows_within _ (match ?x with _ => _ end) => destruct x end ].

Lemma grows_css_guild (settings : gmap string PyVal) (slots : gset string) :
  grows_within slots (css_guild settings).
Proof. unfold css_guild. grows. Qed.

#[local] Hint Resolve grows_css_guild : grows.

Lemma grows_role_property (settings : gmap string PyVal) (slots : gset string)
    (slot name : string) :
  slot ∈ slots -> grows_within slots (role_property settings slot name).
Proof. intros Hin. unfold role_property. grows. Qed.

Lemma grows_channel_is_stale (settings : gmap string PyVal) (slots : gset string)
    (slot : string) :
  grows_within slots (channel_is_stale settings slot).
Proof. unfold channel_is_stale. grows. Qed.

#[local] Hint Resolve grows_channel_is_stale : grows.

Lemma grows_channel_property (settings : gmap string PyVal) (slots : gset string)
    (slot name : string) :
  slot ∈ slots -> grows_within slots (channel_property settings slot name).
Proof. intros Hin. unfold channel_property. grows. Qed.

Lemma grows_welcome_channel (settings : gmap string PyVal) (slots : gset string) :
  "_welcome_channel" ∈ slots -> grows_within slots (welcome_channel settings).
Proof. intros Hin. unfold welcome_channel. grows. Qed.

(** C6: the constructor creates exactly the eight slots of [cache_slots], one
    for the guild, four for roles and three for text channels, each holding
    [None]; eight is within a dozen; and no accessor of the class adds an
    attribute outside these eight. *)
Theorem cache_has_eight_slots (settings : gmap string PyVal) :
  let role_slots := map (fun a => snd (fst a)) (role_accessors settings) in
  let channel_slots :=
    (map (fun a => snd (fst a)) (named_channel_accessors settings) ++ ["_welcome_channel"])%list
  in
  dom (attrs new) = cache_slots
  /\ size cache_slots = 8%nat
  /\ (size cache_slots <= 12)%nat
  /\ map_Forall (fun _ o => o = ONone) (attrs new)
  /\ length role_slots = 4%nat
  /\ length channel_slots = 3%nat
  /\ NoDup ("_css_guild" :: role_slots ++ channel_slots)%list
  /\ cache_slots = list_to_set ("_css_guild" :: role_slots ++ channel_slots)%list
  /\ Forall (fun acc => grows_within cache_slots acc) (accessors settings).
Proof.
  cbv zeta. 
  assert (Hdom : dom (attrs new) = cache_slots).
  { unfold new, __init__, cache_slots, mbind, M_bind, setattr, modify. simpl.
    rewrite !dom_insert_L, dom_empty_L. set_solver. }
  assert (Hsize : size cache_slots = 8%nat) by (vm_compute; reflexivity).
  split; [exact Hdom|]. split; [exact Hsize|]. split; [rewrite Hsize; lia|].
  split.
  { intros k o Hk. unfold new, __init__, mbind, M_bind, setattr, modify in Hk. simpl in Hk.
    repeat (apply lookup_insert_Some in Hk; destruct Hk as [[_ Hk]|[_ Hk]]; [congruence|]).
    rewrite lookup_empty in Hk. discriminate. }
  split; [reflexivity|]. split; [reflexivity|].
  split.
  { simpl. apply (bool_decide_unpack _). vm_compute. reflexivity. }
  split.
  { unfold cache_slots. simpl. set_solver. }
  unfold accessors. simpl.
  repeat constructor.
  - apply grows_css_guild.
  - apply grows_role_property. unfold cache_slots. set_solver.
  - apply grows_role_property. unfold cache_slots. set_solver.
  - apply grows_role_property. unfold cache_slots. set_solver.
  - apply grows_role_property. unfold cache_slots. set_solver.
  - apply grows_channel_property. unfold cache_slots. set_solver.
  - apply grows_channel_property. unfold cache_slots. set_solver.
  - apply grows_welcome_channel. unfold cache_slots. set_solver.
Qed.

(** ** The invitation URL *)

Section OAuthFacts.

Variable settings : gmap string PyVal.
Variable int_of_str : string -> option Z.
Variable oauth_url : PyVal -> Permissions -> DiscordObject -> gset string -> bool -> string.

Lemma Object_never_improperly_configured (id : PyVal) (message : string) :
  Object int_of_str id <> Raise (ImproperlyConfigured message).
Proof.
  unfold Object. destruct id as [|s|z]; [discriminate| |discriminate].
  destruct (int_of_str s); discriminate.
Qed.

(** C10: [get_oauth_url] raises [ImproperlyConfigured] if and only if
    [settings["DISCORD_BOT_APPLICATION_ID"]] is falsy; when it is truthy and
    [settings["DISCORD_GUILD_ID"]] converts to a guild object, the function
    returns the library's OAuth URL for that application id, the eleven
    permissions, that guild and the scopes "bot" and "applications.commands"
    (with guild selection disabled); an integer guild id converts to the
    object bearing it. *)
Theorem get_oauth_url_requires_application_id :
  ((exists message,
       get_oauth_url settings int_of_str oauth_url = Raise (ImproperlyConfigured message))
   <-> exists v, settings !! "DISCORD_BOT_APPLICATION_ID" = Some v /\ truthy v = false)
  /\ (forall application_id wanted guild,
         settings !! "DISCORD_BOT_APPLICATION_ID" = Some application_id ->
         truthy application_id = true ->
         settings !! "DISCORD_GUILD_ID" = Some wanted ->
         Object int_of_str wanted = Return guild ->
         get_oauth_url settings int_of_str oauth_url
         = Return (oauth_url application_id oauth_permissions guild oauth_scopes true))
  /\ (forall z, Object int_of_str (PyInt z) = Return (mkObject z))
  /\ size oauth_permissions = 11%nat
  /\ oauth_scopes = {[ "bot"; "applications.commands" ]}.
Proof.
  split; [|split; [|split; [|split]]].
  - unfold get_oauth_url, getitem, mbind, Result_bind.
    destruct (settings !! "DISCORD_BOT_APPLICATION_ID") as [app|] eqn:Happ.
    + destruct (truthy app) eqn:Ht; simpl.
      * split.
        -- intros [message Hraise].
           destruct (settings !! "DISCORD_GUILD_ID") as [wanted|]; [|discriminate].
           destruct (Object int_of_str wanted) as [guild|e] eqn:Hobj; [discriminate|].
           exfalso. apply (Object_never_improperly_configured wanted message).
           rewrite Hobj. injection Hraise as ->. reflexivity.
        -- intros [v [Hv Hfalse]]. injection Hv as <-. congruence.
      * split; [|intros _; eexists; reflexivity].
        intros _. exists app. split; [reflexivity | assumption].
    + split; [intros [message Hraise]; discriminate|].
      intros [v [Hv _]]. discriminate.
  - intros app wanted guild Happ Ht Hw Hobj.
    unfold get_oauth_url, getitem, mbind, Result_bind.
    rewrite Happ, Ht. simpl. rewrite Hw, Hobj. reflexivity.
  - reflexivity.
  - vm_compute. reflexivity.
  - reflexivity.
Qed.

End OAuthFacts.

Lemma get_oauth_url_requires_application_id_witness :
  get_oauth_url Examples.settings (fun _ => None) (fun client _ guild _ _ =>
      match client with PyStr s => s | _ => "" end)
  = Return "42".
Proof.
  destruct (get_oauth_url_requires_application_id Examples.settings (fun _ => None)
              (fun client _ guild _ _ => match client with PyStr s => s | _ => "" end))
    as [_ [Hbuilt _]].
  apply (Hbuilt (PyStr "42") (PyInt 7) (mkObject 7)); reflexivity.
Defined.

(** ** The error-capture decorator *)

Section CaptureFacts.

Import Cogs.

Context {B : Type} `{TeXBotLike B}.

Variable str_exn : Exn -> string.
Variable repr : string -> string.

(** C2: the wrapper built by [capture_error], called on a cog, returns what
    the wrapped coroutine returns; when the coroutine raises an instance of
    [error_type] it calls [close_func] on it, closes the bot and returns
    [None]; any other exception propagates with the world as the coroutine
    left it.  With the partial application
    [capture_guild_does_not_exist_error] the close function logs the
    exception text, trailing dots and colons removed, as critical. *)
Theorem capture_error_protocol {P T : Type} (func : Instance -> P -> M (World B) T)
    (error_type : ExnType) (close_func : Exn -> M (World B) unit) (args : P) (w : World B) :
  let wrapper := capture_error repr func error_type close_func in
  (forall v w', func CogInstance args w = (Return v, w') ->
                wrapper CogInstance args w = (Return (Some v), w'))
  /\ (forall error w' w'',
         func CogInstance args w = (Raise error, w') ->
         error_type error = true ->
         close_func error w' = (Return tt, w'') ->
         wrapper CogInstance args w
         = (Return None, mkWorld (bot w'') true (responses w'') (logged w'')))
  /\ (forall error w',
         func CogInstance args w = (Raise error, w') ->
         error_type error = false ->
         wrapper CogInstance args w = (Raise error, w'))
  /\ (forall wanted w',
         func CogInstance args w = (Raise (GuildDoesNotExist wanted), w') ->
         capture_guild_does_not_exist_error str_exn repr func CogInstance args w
         = (Return None,
            mkWorld (bot w') true (responses w')
              (logged w' ++ [(CRITICAL,
                              Str.rstrip (Str.contains ".:")
                                (str_exn (GuildDoesNotExist wanted)))]))).
Proof.
  cbv zeta. unfold capture_guild_does_not_exist_error, capture_error.
  split; [|split; [|split]].
  - intros v w' Hf. now rewrite Hf.
  - intros error w' w'' Hf Htype Hclose. rewrite Hf, Htype.
    unfold mbind, M_bind. now rewrite Hclose.
  - intros error w' Hf Htype. now rewrite Hf, Htype.
  - intros wanted w' Hf. rewrite Hf. reflexivity.
Qed.

End CaptureFacts.

(** A command that needs the guild, run on a bot whose cache is empty. *)
Lemma capture_error_protocol_witness :
  let func := fun (_ : Cogs.Instance) (_ : unit) =>
                Cogs.on_bot (css_guild Examples.settings) in
  let w := Cogs.mkWorld Examples.fresh_bot false [] [] in
  func Cogs.CogInstance tt w = (Raise (GuildDoesNotExist (PyInt 7)), w)
  /\ Cogs.capture_guild_does_not_exist_error Examples.str_exn Examples.quoted func
       Cogs.CogInstance tt w
     = (Return None,
        Cogs.mkWorld Examples.fresh_bot true []
          [(Cogs.CRITICAL, "Server with ID does not exist")]).
Proof.
  cbv zeta. split; [reflexivity|].
  destruct (capture_error_protocol Examples.str_exn Examples.quoted
              (fun (_ : Cogs.Instance) (_ : unit) => Cogs.on_bot (css_guild Examples.settings))
              GuildDoesNotExist_type
              (Cogs.guild_does_not_exist_error_close_func Examples.str_exn) tt
              (Cogs.mkWorld Examples.fresh_bot false [] []))
    as [_ [Hcaught _]].
  apply (Hcaught (GuildDoesNotExist (PyInt 7))
           (Cogs.mkWorld Examples.fresh_bot false [] [])
           (Cogs.mkWorld Examples.fresh_bot false []
              [(Cogs.CRITICAL, "Server with ID does not exist")])); reflexivity.
Defined.

(** ** Strings *)

Lemma append_cons (c : ascii) (s t : string) : String c s ++ t = String c (s ++ t).
Proof. reflexivity. Qed.

Lemma append_nil_l (t : string) : "" ++ t = t.
Proof. reflexivity. Qed.

Lemma append_assoc (a b c : string) : (a ++ b) ++ c = a ++ (b ++ c).
Proof.
  induction a as [|x a IH]; [reflexivity|].
  rewrite !append_cons. f_equal. exact IH.
Qed.

(** ** Texts *)

Lemma text_of_app (a b : string) : text_of (a ++ b) = (text_of a ++ text_of b)%list.
Proof.
  induction a as [|c a IH]; [reflexivity|].
  rewrite append_cons. simpl. now rewrite IH.
Qed.

(** ** The error reply *)

Section SendErrorFacts.

Import Cogs.

Context {B : Type} `{TeXBotLike B}.

Variable settings : gmap string PyVal.
Variable str_exn : Exn -> string.
Variable isspace : N -> bool.
Variable decimal : N -> bool.

Lemma send_error_run_with_code ctx code message lm w o b' mention :
  Str.nonempty (Some code) = true ->
  bot_committee_role settings (bot w) = (Return o, b') ->
  (if obj_truthy o then attr_mention o else Return "committee") = Return mention ->
  exists logs,
    send_error settings str_exn isspace decimal ctx (Some code) message lm w
    = (Return tt,
       mkWorld b' (closed w)
         (responses w
            ++ [(reply_text isspace decimal
                   ("**Contact a " ++ mention ++ " member, referencing error code: "
                      ++ code ++ "**" ++ Str.newline ++ ":warning:There was an error")
                   ctx message, true)])%list
         logs).
Proof.
  intros Hne Hacc Hmention.
  unfold send_error. rewrite Hne.
  unfold reply_text, mbind, M_bind, on_bot, mret, M_ret, lift_result, respond, logging, modify.
  rewrite Hacc.
  destruct (obj_truthy o); [rewrite Hmention | injection Hmention as <-];
    cbv beta iota zeta delta [default bot closed responses logged];
    destruct (logging_message_truthy lm); eexists; reflexivity.
Qed.

Lemma send_error_run_without_code ctx error_code message lm w :
  Str.nonempty error_code = false ->
  exists logs,
    send_error settings str_exn isspace decimal ctx error_code message lm w
    = (Return tt,
       mkWorld (bot w) (closed w)
         (responses w
            ++ [(reply_text isspace decimal ":warning:There was an error" ctx message,
                 true)])%list
         logs).
Proof.
  intros Hne. unfold send_error. rewrite Hne.
  unfold reply_text, mbind, M_bind, on_bot, mret, M_ret, lift_result, respond, logging, modify.
  cbv beta iota zeta delta [default bot closed responses logged].
  destruct (logging_message_truthy lm); eexists; reflexivity.
Qed.

Lemma send_error_run_raise ctx code message lm w :
  Str.nonempty (Some code) = true ->
  (forall o b' mention,
      bot_committee_role settings (bot w) = (Return o, b') ->
      (if obj_truthy o then attr_mention o else Return "committee") <> Return mention) ->
  exists e b', send_error settings str_exn isspace decimal ctx (Some code) message lm w
    = (Raise e, mkWorld b' (closed w) (responses w) (logged w)).
Proof.
  intros Hne Hfail. unfold send_error. rewrite Hne.
  unfold mbind, M_bind, on_bot, mret, M_ret, lift_result.
  destruct (bot_committee_role settings (bot w)) as [[o|e] b'] eqn:Hacc.
  - specialize (Hfail o b').
    destruct (obj_truthy o).
    + destruct (attr_mention o) as [m|e]; [exfalso; now apply (Hfail m)|].
      now exists e, b'.
    + exfalso. now apply (Hfail "committee").
  - now exists e, b'.
Qed.

Lemma reply_text_opens (header tail : string) (ctx : ApplicationContext)
    (message : option text) :
  exists rest,
    reply_text isspace decimal (header ++ tail) ctx message = (text_of header ++ rest)%list.
Proof.
  unfold reply_text. cbv zeta.
  destruct (ERROR_ACTIVITIES !! command_name ctx) as [activity|];
    destruct (Text.nonempty message);
    rewrite ?append_assoc; rewrite text_of_app; rewrite <- ?app_assoc;
    eexists; reflexivity.
Qed.

(** C7, as the code has it: when the error code is a non-empty string and
    awaiting the [committee_role] accessor yields a role or [None],
    [send_error] sends one reply, ephemerally, that begins with the contact
    line naming the role's mention, or "committee" when there is no role.
    Whatever the arguments, [send_error] sends at most one reply and sends it
    ephemerally. *)
Theorem send_error_opens_with_contact_line :
  (forall ctx code message lm w o b',
      code <> "" ->
      bot_committee_role settings (bot w) = (Return o, b') ->
      (o = ONone \/ exists r, o = ORole r) ->
      exists reply logs,
        send_error settings str_exn isspace decimal ctx (Some code) message lm w
        = (Return tt, mkWorld b' (closed w) (responses w ++ [(reply, true)])%list logs)
        /\ exists rest,
            reply
            = (text_of ("**Contact a "
                          ++ match o with ORole r => role_mention r | _ => "committee" end
                          ++ " member, referencing error code: " ++ code ++ "**")
                 ++ rest)%list)
  /\ (forall ctx error_code message lm w,
         let after :=
           snd (send_error settings str_exn isspace decimal ctx error_code message lm w) in
         responses after = responses w
         \/ exists reply, responses after = (responses w ++ [(reply, true)])%list).
Proof.
  split.
  - intros ctx code message lm w o b' Hcode Hacc Ho.
    assert (Hne : Str.nonempty (Some code) = true).
    { simpl. apply negb_true_iff. now apply String.eqb_neq. }
    assert (Hm : (if obj_truthy o then attr_mention o else Return "committee")
                 = Return (mention_of o)).
    { destruct Ho as [->|[r ->]]; reflexivity. }
    destruct (send_error_run_with_code ctx code message lm w o b' _ Hne Hacc Hm)
      as [logs Hrun].
    eexists. exists logs. split; [exact Hrun|].
    assert (Hm' : match o with ORole r => role_mention r | _ => "committee" end
                  = mention_of o) by reflexivity.
    rewrite Hm'.
    replace ("**Contact a " ++ mention_of o ++ " member, referencing error code: "
               ++ code ++ "**" ++ Str.newline ++ ":warning:There was an error")
      with (("**Contact a " ++ mention_of o ++ " member, referencing error code: "
               ++ code ++ "**") ++ Str.newline ++ ":warning:There was an error")
      by now rewrite !append_assoc.
    apply reply_text_opens.
  - intros ctx error_code message lm w after. subst after.
    destruct (Str.nonempty error_code) eqn:Hne.
    + destruct error_code as [code|]; [|discriminate].
      destruct (bot_committee_role settings (bot w)) as [[o|e] b'] eqn:Hacc.
      * destruct (if obj_truthy o then attr_mention o else Return "committee")
          as [mention|e] eqn:Hm.
        -- destruct (send_error_run_with_code ctx code message lm w o b' mention Hne Hacc Hm)
             as [logs ->].
           right. eexists. reflexivity.
        -- destruct (send_error_run_raise ctx code message lm w Hne) as [e' [b'' ->]].
           { intros o' b'' mention Hacc'. rewrite Hacc in Hacc'. injection Hacc' as <- <-.
             rewrite Hm. discriminate. }
           left. reflexivity.
      * destruct (send_error_run_raise ctx code message lm w Hne) as [e' [b'' ->]].
        { intros o' b'' mention Hacc'. rewrite Hacc in Hacc'. discriminate. }
        left. reflexivity.
    + destruct (send_error_run_without_code ctx error_code message lm w Hne) as [logs ->].
      right. eexists. reflexivity.
Qed.

End SendErrorFacts.

Lemma send_error_opens_with_contact_line_witness :
  "E1011" <> ""
  /\ exists reply logs,
      Cogs.send_error Examples.settings Examples.str_exn Examples.isspace Examples.decimal
        Examples.ping_context (Some "E1011") None Cogs.NoLoggingMessage
        Examples.awaited_world
      = (Return tt, Cogs.mkWorld Examples.awaited_bot false [(reply, true)] logs)
      /\ exists rest,
          reply
          = (text_of "**Contact a <@&10> member, referencing error code: E1011**"
               ++ rest)%list.
Proof.
  split; [discriminate|].
  destruct (send_error_opens_with_contact_line (B := Cogs.AwaitableBot) Examples.settings
              Examples.str_exn Examples.isspace Examples.decimal) as [Hopens _].
  apply (Hopens Examples.ping_context "E1011" None Cogs.NoLoggingMessage
           Examples.awaited_world (ORole Examples.committee) Examples.awaited_bot).
  - discriminate.
  - reflexivity.
  - right. exists Examples.committee. reflexivity.
Defined.

(** C7, as stated, fails: the empty string is an error code other than
    [None], and the reply to it has no contact line. *)
Lemma send_error_empty_code_has_no_contact_line :
  let after :=
    snd (Cogs.send_error Examples.settings Examples.str_exn Examples.isspace
           Examples.decimal Examples.ping_context (Some "") None Cogs.NoLoggingMessage
           Examples.world) in
  Cogs.responses after
  = [(text_of ":warning:There was an error when trying to reply to ping.:warning:", true)]
  /\ forall mention rest,
      text_of ":warning:There was an error when trying to reply to ping.:warning:"
      <> (text_of ("**Contact a " ++ mention ++ " member, referencing error code: "
                     ++ "" ++ "**")
            ++ rest)%list.
Proof.
  split; [vm_compute; reflexivity|].
  intros mention rest. rewrite text_of_app. discriminate.
Qed.

(** ** The mention pattern and the substitution *)

Section RegexFacts.

Import Re.

Local Open Scope list_scope.

Lemma match_plus_sound (p : N -> bool) :
  forall s k x, match_plus p s k = Some x ->
    exists m s', s = m ++ s' /\ lang (Plus p) m /\ k s' = Some x.
Proof.
  induction s as [|c s IH]; intros k x; simpl; [discriminate|].
  destruct (p c) eqn:Hc; [|discriminate].
  destruct (match_plus p s k) as [r|] eqn:Hrec.
  - intros E. injection E as ->.
    destruct (IH k x Hrec) as [m [s' [-> [[_ Hm] Hk]]]].
    exists (c :: m), s'. split; [reflexivity|]. split; [|exact Hk].
    split; [discriminate|]. now apply List.Forall_cons.
  - intros Hk. exists [c], s. split; [reflexivity|]. split; [|exact Hk].
    split; [discriminate|]. apply List.Forall_cons; [exact Hc|apply List.Forall_nil].
Qed.

(** What the matcher consumes is a text that the pattern denotes. *)
Lemma rmatch_sound (r : regex) :
  forall s k x, rmatch r s k = Some x ->
    exists m s', s = m ++ s' /\ lang r m /\ k s' = Some x.
Proof.
  induction r as [c|p|r1 IH1 r2 IH2|r1 IH1 r2 IH2|r1 IH1|p]; simpl; intros s k x.
  - destruct s as [|c' s]; [discriminate|].
    destruct (N.eqb c c') eqn:E; [|discriminate].
    apply N.eqb_eq in E. subst c'. intros Hk.
    exists [c], s. auto.
  - destruct s as [|c' s]; [discriminate|].
    destruct (p c') eqn:E; [|discriminate]. intros Hk.
    exists [c'], s. repeat split; eauto.
  - intros Hm.
    destruct (IH1 _ _ _ Hm) as [m1 [s1 [-> [Hm1 Hk1]]]].
    destruct (IH2 _ _ _ Hk1) as [m2 [s2 [-> [Hm2 Hk2]]]].
    exists (m1 ++ m2), s2. rewrite <- app_assoc. repeat split; eauto.
  - destruct (rmatch r1 s k) as [y|] eqn:E1.
    + intros E. injection E as ->.
      destruct (IH1 _ _ _ E1) as [m [s' [-> [Hm Hk]]]]. exists m, s'. auto.
    + intros E2. destruct (IH2 _ _ _ E2) as [m [s' [-> [Hm Hk]]]]. exists m, s'. auto.
  - destruct (rmatch r1 s k) as [y|] eqn:E1.
    + intros E. injection E as ->.
      destruct (IH1 _ _ _ E1) as [m [s' [-> [Hm Hk]]]]. exists m, s'. auto.
    + intros Hk. exists [], s. auto.
  - apply match_plus_sound.
Qed.

Lemma among_sigil (c : N) :
  among "@&#" c = true -> c = 64%N \/ c = 38%N \/ c = 35%N.
Proof.
  unfold among. simpl. rewrite !orb_true_iff, !N.eqb_eq. intuition discriminate.
Qed.

Lemma among_second_sigil (c : N) :
  among "&#" c = true -> c = 38%N \/ c = 35%N.
Proof.
  unfold among. simpl. rewrite !orb_true_iff, !N.eqb_eq. intuition discriminate.
Qed.

Variable decimal : N -> bool.

Lemma mention_pattern_denotes (m : text) :
  lang (mention_pattern decimal) m -> wrapped_form decimal m.
Proof.
  unfold mention_pattern. simpl.
  intros [m1 [m2 [Hm [Hm1 [sigil [m3 [Hm2 [Hsigil [ds [gt [Hm3 [[Hne Hds] Hgt]]]]]]]]]]]].
  subst m m1 m2 m3 gt.
  destruct Hsigil as [[E|[c [Hc E]]]|[E|[a [b [E [Ea [c [Hc Eb]]]]]]]]; subst.
  - exists "", ds. simpl. auto 10.
  - destruct (among_sigil c Hc) as [-> | [-> | ->]];
      [exists "@", ds | exists "&", ds | exists "#", ds]; simpl; auto 10.
  - exists "", ds. simpl. auto 10.
  - destruct (among_second_sigil c Hc) as [-> | ->];
      [exists "@&", ds | exists "@#", ds]; simpl; auto 10.
Qed.

Lemma match_length_sound (s : text) (n : nat) :
  match_length (mention_pattern decimal) s = Some n ->
  exists m rest, s = m ++ rest /\ wrapped_form decimal m /\ n = length m.
Proof.
  unfold match_length.
  destruct (rmatch (mention_pattern decimal) s Some) as [rest|] eqn:E; [|discriminate].
  destruct (rmatch_sound _ _ _ _ E) as [m [s' [-> [Hlang Hk]]]].
  injection Hk as ->. intros Hn. injection Hn as <-.
  exists m, rest. split; [reflexivity|]. split; [now apply mention_pattern_denotes|].
  rewrite length_app. lia.
Qed.

Hypothesis decimal_ascii : ascii_digits decimal.

Lemma decimal_is_no_punctuation (c : N) :
  decimal c = true ->
  c <> 60%N /\ c <> 62%N /\ c <> 96%N /\ c <> 64%N /\ c <> 38%N /\ c <> 35%N.
Proof.
  intros Hc.
  repeat split; intros ->; rewrite decimal_ascii in Hc by reflexivity; discriminate.
Qed.

Lemma match_plus_run (ds tail : text) (k : text -> option text) (x : text) :
  ds <> [] ->
  Forall (fun c => decimal c = true) ds ->
  (forall c t, tail = c :: t -> decimal c = false) ->
  k tail = Some x ->
  match_plus decimal (ds ++ tail) k = Some x.
Proof.
  intros Hne Hds Htail Hk. induction ds as [|d ds IH]; [congruence|].
  apply Forall_cons in Hds. destruct Hds as [Hd Hds]. simpl. rewrite Hd.
  destruct ds as [|d' ds'].
  - simpl. destruct tail as [|c t]; [exact Hk|].
    simpl. now rewrite (Htail c t eq_refl).
  - rewrite IH; [reflexivity|discriminate|exact Hds].
Qed.

Lemma digits_then_gt (ds rest : text) :
  ds <> [] ->
  Forall (fun c => decimal c = true) ds ->
  rmatch (Seq (Plus decimal) (Lit 62)) (ds ++ 62%N :: rest) Some = Some rest.
Proof.
  intros Hne Hds. simpl. apply match_plus_run; try assumption.
  - intros c t E. injection E as <- _. now rewrite decimal_ascii.
  - reflexivity.
Qed.

Lemma no_digits_no_match (c : N) (t : text) :
  decimal c = false ->
  rmatch (Seq (Plus decimal) (Lit 62)) (c :: t) Some = None.
Proof. intros Hc. simpl. now rewrite Hc. Qed.

Lemma digit_is_no_sigil (c : N) : decimal c = true -> among "@&#" c = false.
Proof.
  intros Hc. destruct (decimal_is_no_punctuation c Hc) as [_ [_ [_ [H1 [H2 H3]]]]].
  destruct (among "@&#" c) eqn:E; [|reflexivity].
  destruct (among_sigil c E) as [-> | [-> | ->]]; congruence.
Qed.

(** The pattern matches each of the six forms wherever one starts, and
    matches all of it. *)
Lemma wrapped_form_matches (tok rest : text) :
  wrapped_form decimal tok ->
  rmatch (mention_pattern decimal) (tok ++ rest) Some = Some rest.
Proof.
  intros [sigil [ds [Hsigil [Hne [Hds ->]]]]].
  unfold mention_pattern.
  rewrite <- !app_assoc.
  set (tail := Seq (Plus decimal) (Lit 62)).
  assert (Hrun : rmatch tail (ds ++ 62%N :: rest) Some = Some rest)
    by (now apply digits_then_gt).
  assert (Hno : forall c t, decimal c = false -> rmatch tail (c :: t) Some = None)
    by (intros c t; apply no_digits_no_match).
  assert (H64 : decimal 64 = false) by now rewrite decimal_ascii.
  assert (H38 : decimal 38 = false) by now rewrite decimal_ascii.
  assert (H35 : decimal 35 = false) by now rewrite decimal_ascii.
  change (text_of ">" ++ rest) with (62%N :: rest).
  change (text_of "<" ++ ?x) with (60%N :: x).
  change (rmatch (Seq (Lit 60) ?r) (60%N :: ?s) Some) with (rmatch r s Some).
  change (rmatch (Seq ?a tail) ?s Some) with (rmatch a s (fun s' => rmatch tail s' Some)).
  simpl in Hsigil. destruct Hsigil as [<-|[<-|[<-|[<-|[<-|[<-|[]]]]]]].
  - change (text_of "" ++ ?x) with x. destruct ds as [|d ds']; [congruence|].
    apply Forall_cons in Hds. simpl app in *. cbn [rmatch].
    rewrite (digit_is_no_sigil d (proj1 Hds)). now rewrite Hrun.
  - change (text_of "@" ++ ?x) with (64%N :: x). cbn [rmatch].
    change (among "@&#" 64) with true. cbv iota. now rewrite Hrun.
  - change (text_of "&" ++ ?x) with (38%N :: x). cbn [rmatch].
    change (among "@&#" 38) with true. cbv iota. now rewrite Hrun.
  - change (text_of "#" ++ ?x) with (35%N :: x). cbn [rmatch].
    change (among "@&#" 35) with true. cbv iota. now rewrite Hrun.
  - change (text_of "@&" ++ ?x) with (64%N :: 38%N :: x). cbn [rmatch].
    change (among "@&#" 64) with true. cbv iota.
    rewrite !Hno by assumption.
    change (N.eqb 64 64) with true. cbv iota.
    change (among "&#" 38) with true. cbv iota. now rewrite Hrun.
  - change (text_of "@#" ++ ?x) with (64%N :: 35%N :: x). cbn [rmatch].
    change (among "@&#" 64) with true. cbv iota.
    rewrite !Hno by assumption.
    change (N.eqb 64 64) with true. cbv iota.
    change (among "&#" 35) with true. cbv iota. now rewrite Hrun.
Qed.

End RegexFacts.

Section ScanFacts.

Import Re.

Local Open Scope list_scope.

Variable decimal : N -> bool.
Hypothesis decimal_ascii : ascii_digits decimal.







Variable repl : text -> text.



Lemma sub_from_no_match (c : N) (t : text) :
  match_length (mention_pattern decimal) (c :: t) = None ->
  sub_from (mention_pattern decimal) repl 0 (c :: t)
  = c :: sub_from (mention_pattern decimal) repl 0 t.
Proof. intros E. cbn [sub_from]. now rewrite E. Qed.




End ScanFacts.

Section WrappingFacts.

Import Re.

Local Open Scope list_scope.

Variable decimal : N -> bool.
Hypothesis decimal_ascii : ascii_digits decimal.





(** A text without "<" goes through the substitution unchanged. *)
Lemma sub_plain (repl : text -> text) (s : text) :
  Forall (fun c => c <> 60%N) s -> sub (mention_pattern decimal) repl s = s.
Proof.
  unfold sub. induction s as [|c s IH]; intros Hs; [reflexivity|].
  apply Forall_cons in Hs. destruct Hs as [Hc Hs].
  rewrite sub_from_no_match, (IH Hs); [reflexivity|].
  destruct (match_length (mention_pattern decimal) (c :: s)) as [n|] eqn:E; [|reflexivity].
  destruct (match_length_sound decimal _ n E) as [m [rest [Heq [Hm _]]]].
  destruct Hm as [sigil [ds [_ [_ [_ ->]]]]].
  change (text_of "<" ++ ?x) with (60%N :: x) in Heq.
  injection Heq as -> _. congruence.
Qed.

End WrappingFacts.

Lemma examples_decimal_ascii : ascii_digits Examples.decimal.
Proof.
  intros c Hc. unfold Examples.decimal.
  assert (H1 : (1632 <=? c)%N = false) by (apply N.leb_gt; lia).
  rewrite H1. simpl. apply orb_false_r.
Qed.

Section MentionFacts.

Import Cogs.

Local Open Scope list_scope.

Context {B : Type} `{TeXBotLike B}.

Variable settings : gmap string PyVal.
Variable str_exn : Exn -> string.
Variable isspace : N -> bool.
Variable decimal : N -> bool.

Lemma list_not_longer {A : Type} (l : list A) (x : A) : l <> l ++ [x].
Proof.
  intros E. apply (f_equal (@length A)) in E. rewrite length_app in E. simpl in E. lia.
Qed.

(** Whatever [send_error] sends is the reply built around some opening. *)
Lemma sent_text_is_reply_text (ctx : ApplicationContext) (error_code : option string)
    (message : option text) (lm : LoggingMessage) (w : World B) (reply : text) :
  responses (snd (send_error settings str_exn isspace decimal ctx error_code message lm w))
  = responses w ++ [(reply, true)] ->
  exists opening, reply = reply_text isspace decimal opening ctx message.
Proof.
  intros Hsent. destruct (Str.nonempty error_code) eqn:Hne.
  - destruct error_code as [code|]; [|discriminate].
    destruct (bot_committee_role settings (bot w)) as [[o|e] b'] eqn:Hacc.
    + destruct (if obj_truthy o then attr_mention o else Return "committee")
        as [mention|e] eqn:Hm.
      * destruct (send_error_run_with_code settings str_exn isspace decimal ctx code
                    message lm w o b' mention Hne Hacc Hm) as [logs Hrun].
        rewrite Hrun in Hsent. simpl in Hsent.
        apply app_inv_head in Hsent. injection Hsent as <-. eexists. reflexivity.
      * destruct (send_error_run_raise settings str_exn isspace decimal ctx code message
                    lm w Hne) as [e' [b'' Hrun]].
        { intros o' b'' mention Hacc'. rewrite Hacc in Hacc'. injection Hacc' as <- <-.
          rewrite Hm. discriminate. }
        rewrite Hrun in Hsent. simpl in Hsent. now apply list_not_longer in Hsent.
    + destruct (send_error_run_raise settings str_exn isspace decimal ctx code message
                  lm w Hne) as [e' [b'' Hrun]].
      { intros o' b'' mention Hacc'. rewrite Hacc in Hacc'. discriminate. }
      rewrite Hrun in Hsent. simpl in Hsent. now apply list_not_longer in Hsent.
  - destruct (send_error_run_without_code settings str_exn isspace decimal ctx error_code
                message lm w Hne) as [logs Hrun].
    rewrite Hrun in Hsent. simpl in Hsent.
    apply app_inv_head in Hsent. injection Hsent as <-. eexists. reflexivity.
Qed.

Lemma reply_text_with_message (opening : string) (ctx : ApplicationContext) (msg : text) :
  msg <> [] ->
  exists head,
    reply_text isspace decimal opening ctx (Some msg)
    = head ++ text_of Str.newline ++ text_of "`"
        ++ Re.sub (Re.mention_pattern decimal) backticked (Text.strip isspace msg)
        ++ text_of "`".
Proof.
  intros Hmsg. unfold reply_text. cbv zeta.
  assert (Hne : Text.nonempty (Some msg) = true) by (destruct msg; [congruence|reflexivity]).
  rewrite Hne. eexists. reflexivity.
Qed.


End MentionFacts.


(** ** Further properties of the accessors *)

Section AccessorLaws.

Variable settings : gmap string PyVal.

Lemma assigned_twice (slot : string) (o : PyObj) (self : TeXBot) :
  assigned slot o (assigned slot o self) = assigned slot o self.
Proof. unfold assigned. simpl. now rewrite insert_insert_eq. Qed.

Lemma fresh_test_fetched_role (rs : list Role) (p : Role -> bool) (r : Role) :
  get rs p = Some r -> fresh_test rs role_id (ORole r) = true.
Proof.
  intros Hget. unfold fresh_test. simpl. apply negb_true_iff.
  apply is_none_get_id, in_map. now apply (get_Some_In rs p).
Qed.

Lemma fresh_test_fetched_channel (cs : list TextChannel) (p : TextChannel -> bool)
    (c : TextChannel) :
  get cs p = Some c -> fresh_test cs channel_id (OChannel c) = true.
Proof.
  intros Hget. unfold fresh_test. simpl. apply negb_true_iff.
  apply is_none_get_id, in_map. now apply (get_Some_In cs p).
Qed.

Lemma role_property_settles (slot name : string) (self self' : TeXBot) (o : PyObj) :
  slot <> "_css_guild" ->
  role_property settings slot name self = (Return o, self') ->
  role_property settings slot name self' = (Return o, self').
Proof.
  intros Hslot Hacc.
  destruct (role_property_returns _ _ _ _ _ _ Hacc) as [g [cached [Hg Hc]]].
  rewrite (role_property_run settings slot name self g cached Hg Hc) in Hacc.
  destruct (fresh_test (roles g) role_id cached) eqn:Hfresh.
  - injection Hacc as <- <-.
    rewrite (role_property_run settings slot name self g cached Hg Hc). now rewrite Hfresh.
  - cbv zeta in Hacc. injection Hacc as <- <-.
    set (fetched := of_role (get (roles g) (fun r => String.eqb (role_name r) name))).
    assert (Hg' : fst (css_guild settings (assigned slot fetched self)) = Return (OGuild g))
      by (now rewrite css_guild_assigned).
    assert (Hc' : attrs (assigned slot fetched self) !! slot = Some fetched)
      by (apply lookup_insert_eq).
    rewrite (role_property_run settings slot name _ g fetched Hg' Hc').
    destruct (fresh_test (roles g) role_id fetched) eqn:Hfresh'; [reflexivity|].
    cbv zeta. fold fetched. now rewrite assigned_twice.
Qed.

Lemma channel_property_settles (slot name : string) (self self' : TeXBot) (o : PyObj) :
  slot <> "_css_guild" ->
  channel_property settings slot name self = (Return o, self') ->
  channel_property settings slot name self' = (Return o, self').
Proof.
  intros Hslot Hacc.
  destruct (channel_property_returns _ _ _ _ _ _ Hacc) as [g [cached [Hg Hc]]].
  rewrite (channel_property_run settings slot name self g cached Hg Hc) in Hacc.
  destruct (fresh_test (text_channels g) channel_id cached) eqn:Hfresh.
  - injection Hacc as <- <-.
    rewrite (channel_property_run settings slot name self g cached Hg Hc). now rewrite Hfresh.
  - cbv zeta in Hacc. injection Hacc as <- <-.
    set (fetched :=
           of_channel (get (text_channels g) (fun c => String.eqb (channel_name c) name))).
    assert (Hg' : fst (css_guild settings (assigned slot fetched self)) = Return (OGuild g))
      by (now rewrite css_guild_assigned).
    assert (Hc' : attrs (assigned slot fetched self) !! slot = Some fetched)
      by (apply lookup_insert_eq).
    rewrite (channel_property_run settings slot name _ g fetched Hg' Hc').
    destruct (fresh_test (text_channels g) channel_id fetched) eqn:Hfresh'; [reflexivity|].
    cbv zeta. fold fetched. now rewrite assigned_twice.
Qed.

Lemma welcome_channel_settles (self self' : TeXBot) (o : PyObj) :
  welcome_channel settings self = (Return o, self') ->
  welcome_channel settings self' = (Return o, self').
Proof.
  intros Hacc.
  destruct (welcome_channel_returns _ _ _ _ Hacc) as [g [cached [Hg Hc]]].
  rewrite (welcome_channel_run settings self g cached Hg Hc) in Hacc.
  destruct (fresh_test (text_channels g) channel_id cached) eqn:Hfresh.
  - injection Hacc as <- <-.
    rewrite (welcome_channel_run settings self g cached Hg Hc). now rewrite Hfresh.
  - injection Hacc as <- <-.
    assert (Hg' : fst (css_guild settings (assigned "_welcome_channel" (welcome_of g) self))
                  = Return (OGuild g)) by (now rewrite css_guild_assigned).
    assert (Hc' : attrs (assigned "_welcome_channel" (welcome_of g) self)
                    !! "_welcome_channel" = Some (welcome_of g))
      by (apply lookup_insert_eq).
    rewrite (welcome_channel_run settings _ g (welcome_of g) Hg' Hc').
    destruct (fresh_test (text_channels g) channel_id (welcome_of g)); [reflexivity|].
    now rewrite assigned_twice.
Qed.

(** X1: a second call of a role or channel accessor, right after a call that
    returned, returns the same object and leaves the bot as the first call
    left it. *)
Theorem accessors_settle (self self' : TeXBot) (o : PyObj) :
  (forall acc slot name,
      In (acc, slot, name) (role_accessors settings ++ named_channel_accessors settings) ->
      acc self = (Return o, self') -> acc self' = (Return o, self'))
  /\ (welcome_channel settings self = (Return o, self') ->
      welcome_channel settings self' = (Return o, self')).
Proof.
  split; [|apply welcome_channel_settles].
  intros acc slot name Hin Hacc. simpl in Hin.
  destruct Hin as [E|[E|[E|[E|[E|[E|[]]]]]]]; inversion E; subst;
    unfold committee_role, guest_role, member_role, archivist_role, roles_channel,
      general_channel in *;
    first [ apply (role_property_settles _ _ self); [discriminate | exact Hacc]
          | apply (channel_property_settles _ _ self); [discriminate | exact Hacc] ].
Qed.

End AccessorLaws.

Lemma accessors_settle_witness :
  let after := assigned "_committee_role" (ORole Examples.committee) Examples.outdated_bot in
  committee_role Examples.settings Examples.outdated_bot
  = (Return (ORole Examples.committee), after)
  /\ committee_role Examples.settings after = (Return (ORole Examples.committee), after).
Proof.
  cbv zeta.
  assert (Hfirst : committee_role Examples.settings Examples.outdated_bot
                   = (Return (ORole Examples.committee),
                      assigned "_committee_role" (ORole Examples.committee)
                        Examples.outdated_bot)) by reflexivity.
  split; [exact Hfirst|].
  destruct (accessors_settle Examples.settings Examples.outdated_bot
              (assigned "_committee_role" (ORole Examples.committee) Examples.outdated_bot)
              (ORole Examples.committee)) as [Hnamed _].
  apply (Hnamed (committee_role Examples.settings) "_committee_role" "Committee").
  - left. reflexivity.
  - exact Hfirst.
Defined.

Section AccessorFailures.

Variable settings : gmap string PyVal.

Lemma role_property_raises (slot name : string) (self : TeXBot) (cached : PyObj) (e : Exn) :
  fst (css_guild settings self) = Raise e ->
  attrs self !! slot = Some cached ->
  role_property settings slot name self = (Raise e, self).
Proof.
  intros He Hc.
  assert (Hcss : css_guild settings self = (Raise e, self)).
  { rewrite (surjective_pairing (css_guild settings self)). now rewrite He, css_guild_pure. }
  unfold role_property, mbind, M_bind, getattr, lift_result, mret, M_ret.
  rewrite Hc. destruct cached; simpl; now rewrite Hcss.
Qed.

Lemma channel_is_stale_raises (slot : string) (self : TeXBot) (cached : PyObj) (e : Exn) :
  fst (css_guild settings self) = Raise e ->
  attrs self !! slot = Some cached ->
  channel_is_stale settings slot self
  = (if obj_truthy cached then Raise e else Return true, self).
Proof.
  intros He Hc.
  assert (Hcss : css_guild settings self = (Raise e, self)).
  { rewrite (surjective_pairing (css_guild settings self)). now rewrite He, css_guild_pure. }
  unfold channel_is_stale, mbind, M_bind, getattr, lift_result, mret, M_ret.
  rewrite Hc. destruct cached; simpl; now rewrite ?Hcss.
Qed.

Lemma channel_property_raises (slot name : string) (self : TeXBot) (cached : PyObj)
    (e : Exn) :
  fst (css_guild settings self) = Raise e ->
  attrs self !! slot = Some cached ->
  channel_property settings slot name self = (Raise e, self).
Proof.
  intros He Hc. unfold channel_property, mbind, M_bind at 1.
  rewrite (channel_is_stale_raises slot self cached e He Hc).
  assert (Hcss : css_guild settings self = (Raise e, self)).
  { rewrite (surjective_pairing (css_guild settings self)). now rewrite He, css_guild_pure. }
  destruct (obj_truthy cached); [reflexivity|].
  unfold mbind, M_bind. now rewrite Hcss.
Qed.

Lemma welcome_channel_raises (self : TeXBot) (cached : PyObj) (e : Exn) :
  fst (css_guild settings self) = Raise e ->
  attrs self !! "_welcome_channel" = Some cached ->
  welcome_channel settings self = (Raise e, self).
Proof.
  intros He Hc. unfold welcome_channel, mbind, M_bind at 1.
  rewrite (channel_is_stale_raises _ self cached e He Hc).
  assert (Hcss : css_guild settings self = (Raise e, self)).
  { rewrite (surjective_pairing (css_guild settings self)). now rewrite He, css_guild_pure. }
  destruct (obj_truthy cached); [reflexivity|].
  unfold mbind, M_bind. now rewrite Hcss.
Qed.

(** X2: when the guild accessor raises, each role and channel accessor whose
    slot exists raises the same exception and leaves the bot untouched,
    whether its own cached reference is [None] or not. *)
Theorem accessors_pass_on_guild_failure (self : TeXBot) (e : Exn) :
  fst (css_guild settings self) = Raise e ->
  (forall acc slot name cached,
      In (acc, slot, name) (role_accessors settings ++ named_channel_accessors settings) ->
      attrs self !! slot = Some cached ->
      acc self = (Raise e, self))
  /\ (forall cached,
         attrs self !! "_welcome_channel" = Some cached ->
         welcome_channel settings self = (Raise e, self)).
Proof.
  intros He. split.
  - intros acc slot name cached Hin Hc. simpl in Hin.
    destruct Hin as [E|[E|[E|[E|[E|[E|[]]]]]]]; inversion E; subst;
      first [ now apply (role_property_raises _ _ self cached)
            | now apply (channel_property_raises _ _ self cached) ].
  - intros cached Hc. now apply (welcome_channel_raises self cached).
Qed.

(** X3: on a bot as the constructor leaves it, whatever guilds it is
    connected to, each of the eight accessors raises [GuildDoesNotExist] with
    the configured id: the cache serves nothing until [_css_guild] is set
    from outside the class. *)
Theorem fresh_bot_serves_nothing (connected : list Guild) (wanted : PyVal) :
  settings !! "DISCORD_GUILD_ID" = Some wanted ->
  Forall (fun acc => acc (mkTeXBot (attrs new) connected)
                     = (Raise (GuildDoesNotExist wanted), mkTeXBot (attrs new) connected))
    (accessors settings).
Proof.
  intros Hw. set (self := mkTeXBot (attrs new) connected).
  assert (Hcss : css_guild settings self = (Raise (GuildDoesNotExist wanted), self)).
  { now rewrite (css_guild_run settings self ONone wanted eq_refl Hw). }
  assert (He : fst (css_guild settings self) = Raise (GuildDoesNotExist wanted))
    by (now rewrite Hcss).
  unfold accessors. simpl. repeat constructor.
  - exact Hcss.
  - now apply (role_property_raises _ _ self ONone).
  - now apply (role_property_raises _ _ self ONone).
  - now apply (role_property_raises _ _ self ONone).
  - now apply (role_property_raises _ _ self ONone).
  - now apply (channel_property_raises _ _ self ONone).
  - now apply (channel_property_raises _ _ self ONone).
  - now apply (welcome_channel_raises self ONone).
Qed.

(** X4: when [settings] has no "DISCORD_GUILD_ID" entry the guild accessor
    raises [KeyError], not [GuildDoesNotExist], whatever the cache holds. *)
Theorem css_guild_needs_the_setting (self : TeXBot) (cached : PyObj) :
  settings !! "DISCORD_GUILD_ID" = None ->
  attrs self !! "_css_guild" = Some cached ->
  css_guild settings self = (Raise (KeyError "DISCORD_GUILD_ID"), self).
Proof.
  intros Hw Hc.
  unfold css_guild, mbind, M_bind, getattr, gets, lift_result, getitem, raise, mret, M_ret.
  rewrite Hc, Hw. now destruct (obj_truthy cached).
Qed.

End AccessorFailures.

Lemma accessors_pass_on_guild_failure_witness :
  fst (css_guild Examples.settings Examples.fresh_bot) = Raise (GuildDoesNotExist (PyInt 7))
  /\ guest_role Examples.settings Examples.fresh_bot
     = (Raise (GuildDoesNotExist (PyInt 7)), Examples.fresh_bot).
Proof.
  assert (He : fst (css_guild Examples.settings Examples.fresh_bot)
               = Raise (GuildDoesNotExist (PyInt 7))) by reflexivity.
  split; [exact He|].
  destruct (accessors_pass_on_guild_failure Examples.settings Examples.fresh_bot _ He)
    as [Hnamed _].
  apply (Hnamed (guest_role Examples.settings) "_guest_role" "Guest" ONone).
  - right. left. reflexivity.
  - reflexivity.
Defined.

Lemma fresh_bot_serves_nothing_witness :
  Forall (fun acc => acc Examples.fresh_bot
                     = (Raise (GuildDoesNotExist (PyInt 7)), Examples.fresh_bot))
    (accessors Examples.settings).
Proof.
  apply (fresh_bot_serves_nothing Examples.settings [Examples.guild] (PyInt 7)).
  reflexivity.
Defined.

Lemma css_guild_needs_the_setting_witness :
  css_guild ∅ Examples.ready_bot = (Raise (KeyError "DISCORD_GUILD_ID"), Examples.ready_bot).
Proof.
  apply (css_guild_needs_the_setting ∅ Examples.ready_bot (OGuild Examples.guild));
    reflexivity.
Defined.

(** ** What an accessor may write *)

Section Frame.

Variable slot : string.

Lemma touches_ret {A : Type} (a : A) : touches_only slot (mret a).
Proof. intros self. simpl. auto. Qed.

Lemma touches_bind {A C : Type} (m : M TeXBot A) (f : A -> M TeXBot C) :
  touches_only slot m -> (forall a, touches_only slot (f a)) ->
  touches_only slot (m ≫= f).
Proof.
  intros Hm Hf self. unfold mbind, M_bind.
  destruct (Hm self) as [Hg Ha]. destruct (m self) as [[a|e] s'] eqn:E; simpl in *.
  - destruct (Hf a s') as [Hg' Ha']. split; [congruence|].
    intros k Hk. rewrite (Ha' k Hk). now apply Ha.
  - auto.
Qed.

Lemma touches_getattr (name : string) : touches_only slot (getattr name).
Proof. intros self. unfold getattr. destruct (attrs self !! name); simpl; auto. Qed.

Lemma touches_setattr (o : PyObj) : touches_only slot (setattr slot o).
Proof.
  intros self. simpl. split; [reflexivity|].
  intros k Hk. apply lookup_insert_ne. congruence.
Qed.

Lemma touches_lift {A : Type} (r : Result A) : touches_only slot (lift_result r).
Proof. intros self. simpl. auto. Qed.

Lemma touches_gets {A : Type} (f : TeXBot -> A) : touches_only slot (gets f).
Proof. intros self. simpl. auto. Qed.

Lemma touches_raise {A : Type} (e : Exn) : touches_only slot (raise (A := A) e).
Proof. intros self. simpl. auto. Qed.

Lemma touches_if {A : Type} (b : bool) (m1 m2 : M TeXBot A) :
  touches_only slot m1 -> touches_only slot m2 ->
  touches_only slot (if b then m1 else m2).
Proof. now destruct b. Qed.

End Frame.

Create HintDb touches.

#[local] Hint Resolve touches_ret touches_getattr touches_lift touches_gets touches_raise
  touches_setattr : touches.

Ltac touches :=
  repeat first
    [ apply touches_bind; [|intros ?]
    | apply touches_if
    | solve [auto with touches]
    | match goal with |- touches_only _ (match ?x with _ => _ end) => destruct x end ].

Lemma touches_css_guild (settings : gmap string PyVal) (slot : string) :
  touches_only slot (css_guild settings).
Proof. unfold css_guild. touches. Qed.

#[local] Hint Resolve touches_css_guild : touches.

Lemma touches_channel_is_stale (settings : gmap string PyVal) (slot : string) :
  touches_only slot (channel_is_stale settings slot).
Proof. unfold channel_is_stale. touches. Qed.

#[local] Hint Resolve touches_channel_is_stale : touches.

(** X5: whatever it returns or raises, each role or channel accessor leaves
    the connected guilds and every attribute other than its own slot as they
    were. *)
Theorem accessors_write_their_own_slot (settings : gmap string PyVal) :
  Forall (fun a => touches_only (snd (fst a)) (fst (fst a)))
    (role_accessors settings ++ named_channel_accessors settings)
  /\ touches_only "_welcome_channel" (welcome_channel settings).
Proof.
  split.
  - simpl.
    repeat (apply List.Forall_cons;
            [ cbn [fst snd];
              unfold committee_role, guest_role, member_role, archivist_role, roles_channel,
                general_channel, role_property, channel_property; touches |]).
    apply List.Forall_nil.
  - unfold welcome_channel. touches.
Qed.

(** ** Further properties of the invitation URL *)

(** X6: with a truthy application id, [get_oauth_url] raises [KeyError] when
    no guild id is configured and [TypeError] when the configured guild id is
    [None] or a string that [int] rejects. *)
Theorem get_oauth_url_needs_a_guild_id (settings : gmap string PyVal)
    (int_of_str : string -> option Z)
    (oauth_url : PyVal -> Permissions -> DiscordObject -> gset string -> bool -> string)
    (application_id : PyVal) :
  settings !! "DISCORD_BOT_APPLICATION_ID" = Some application_id ->
  truthy application_id = true ->
  (settings !! "DISCORD_GUILD_ID" = None ->
   get_oauth_url settings int_of_str oauth_url = Raise (KeyError "DISCORD_GUILD_ID"))
  /\ (settings !! "DISCORD_GUILD_ID" = Some PyNone ->
      exists message, get_oauth_url settings int_of_str oauth_url = Raise (TypeError message))
  /\ (forall s, settings !! "DISCORD_GUILD_ID" = Some (PyStr s) -> int_of_str s = None ->
      exists message, get_oauth_url settings int_of_str oauth_url = Raise (TypeError message)).
Proof.
  intros Happ Ht. unfold get_oauth_url, getitem, mbind, Result_bind.
  rewrite Happ, Ht. simpl. repeat split.
  - now intros ->.
  - intros ->. simpl. eexists. reflexivity.
  - intros s -> Hs. simpl. rewrite Hs. eexists. reflexivity.
Qed.

Lemma get_oauth_url_needs_a_guild_id_witness :
  get_oauth_url {[ "DISCORD_BOT_APPLICATION_ID" := PyStr "42" ]} (fun _ => None)
    (fun _ _ _ _ _ => "") = Raise (KeyError "DISCORD_GUILD_ID").
Proof.
  assert (Happ : ({[ "DISCORD_BOT_APPLICATION_ID" := PyStr "42" ]} : gmap string PyVal)
                   !! "DISCORD_BOT_APPLICATION_ID" = Some (PyStr "42"))
    by (vm_compute; reflexivity).
  destruct (get_oauth_url_needs_a_guild_id {[ "DISCORD_BOT_APPLICATION_ID" := PyStr "42" ]}
              (fun _ => None) (fun _ _ _ _ _ => "") (PyStr "42") Happ eq_refl)
    as [Hmissing _].
  apply Hmissing. vm_compute. reflexivity.
Defined.

(** ** Further properties of the error reply *)

Section SendErrorLaws.

Import Cogs.

Context {B : Type} `{TeXBotLike B}.

Variable settings : gmap string PyVal.
Variable str_exn : Exn -> string.
Variable isspace : N -> bool.
Variable decimal : N -> bool.

Lemma eqb_append_cons (a : string) (c : ascii) (b : string) :
  String.eqb (a ++ String c b) "" = false.
Proof. destruct a; reflexivity. Qed.

Lemma eqb_cons_nil (c : ascii) (b : string) : String.eqb (String c b) "" = false.
Proof. reflexivity. Qed.

(** What [send_error] does after its opening line is built. *)
Lemma send_error_logs_with_code ctx code message lm w o b' mention :
  Str.nonempty (Some code) = true ->
  bot_committee_role settings (bot w) = (Return o, b') ->
  (if obj_truthy o then attr_mention o else Return "committee") = Return mention ->
  exists reply,
    send_error settings str_exn isspace decimal ctx (Some code) message lm w
    = (Return tt,
       mkWorld b' (closed w) (responses w ++ [(reply, true)])%list
         (logged w ++ if logging_message_truthy lm
                      then [(ERROR, log_text str_exn (Some code) ctx lm)] else [])%list).
Proof.
  intros Hne Hacc Hmention.
  assert (Hcode : String.eqb code "" = false) by (now apply negb_true_iff in Hne).
  unfold send_error, log_text. rewrite Hne.
  unfold mbind, M_bind, on_bot, mret, M_ret, lift_result, respond, logging, modify.
  rewrite Hacc.
  destruct (obj_truthy o); [rewrite Hmention | injection Hmention as <-];
    cbv beta iota zeta delta [bot closed responses logged];
    change (default "" (Some code)) with code;
    rewrite !append_nil_l, Hcode; cbv beta iota delta [negb];
    rewrite !append_assoc, !append_cons, !append_nil_l, !eqb_append_cons;
    cbv beta iota delta [negb];
    repeat (rewrite append_assoc || rewrite append_cons || rewrite append_nil_l);
    (destruct (logging_message_truthy lm); eexists;
     [reflexivity | now rewrite app_nil_r]).
Qed.

Lemma send_error_logs_without_code ctx error_code message lm w :
  Str.nonempty error_code = false ->
  exists reply,
    send_error settings str_exn isspace decimal ctx error_code message lm w
    = (Return tt,
       mkWorld (bot w) (closed w) (responses w ++ [(reply, true)])%list
         (logged w ++ if logging_message_truthy lm
                      then [(ERROR, log_text str_exn error_code ctx lm)] else [])%list).
Proof.
  intros Hne. unfold send_error, log_text. rewrite Hne.
  unfold mbind, M_bind, on_bot, mret, M_ret, lift_result, respond, logging, modify.
  cbv beta iota zeta delta [bot closed responses logged].
  change (String.eqb "" "") with true. cbv beta iota delta [negb].
  rewrite !append_nil_l, !append_cons, !append_nil_l, !eqb_cons_nil.
  cbv beta iota delta [negb].
  repeat (rewrite append_assoc || rewrite append_cons || rewrite append_nil_l).
  destruct (logging_message_truthy lm); eexists; [reflexivity | now rewrite app_nil_r].
Qed.

(** X7: a call of [send_error] that returns leaves the bot's connection as
    it was and logs exactly one ERROR record when [logging_message] is truthy,
    reading "<code> (<command>) <message>" (without the code and its space
    when there is no code), and logs nothing otherwise. *)
Theorem send_error_logs_once (ctx : ApplicationContext) (error_code : option string)
    (message : option text) (lm : LoggingMessage) (w w' : World B) :
  send_error settings str_exn isspace decimal ctx error_code message lm w = (Return tt, w') ->
  closed w' = closed w
  /\ logged w'
     = (logged w ++ if logging_message_truthy lm
                    then [(ERROR, log_text str_exn error_code ctx lm)] else [])%list.
Proof.
  intros Hrun. destruct (Str.nonempty error_code) eqn:Hne.
  - destruct error_code as [code|]; [|discriminate].
    destruct (bot_committee_role settings (bot w)) as [[o|e] b'] eqn:Hacc.
    + destruct (if obj_truthy o then attr_mention o else Return "committee")
        as [mention|e] eqn:Hm.
      * destruct (send_error_logs_with_code ctx code message lm w o b' mention Hne Hacc Hm)
          as [reply Hrun'].
        rewrite Hrun' in Hrun. injection Hrun as <-. auto.
      * destruct (send_error_run_raise settings str_exn isspace decimal ctx code message lm w Hne)
          as [e' [b'' Hrun']].
        { intros o' b'' mention Hacc'. rewrite Hacc in Hacc'. injection Hacc' as <- <-.
          rewrite Hm. discriminate. }
        rewrite Hrun' in Hrun. discriminate.
    + destruct (send_error_run_raise settings str_exn isspace decimal ctx code message lm w Hne)
        as [e' [b'' Hrun']].
      { intros o' b'' mention Hacc'. rewrite Hacc in Hacc'. discriminate. }
      rewrite Hrun' in Hrun. discriminate.
  - destruct (send_error_logs_without_code ctx error_code message lm w Hne) as [reply Hrun'].
    rewrite Hrun' in Hrun. injection Hrun as <-. auto.
Qed.

Lemma send_error_raises (ctx : ApplicationContext) (code : string)
    (message : option text) (lm : LoggingMessage) (w : World B) (e : Exn) (b' : B) :
  code <> "" ->
  bot_committee_role settings (bot w) = (Raise e, b') ->
  send_error settings str_exn isspace decimal ctx (Some code) message lm w
  = (Raise e, mkWorld b' (closed w) (responses w) (logged w)).
Proof.
  intros Hcode Hacc.
  assert (Hne : Str.nonempty (Some code) = true).
  { simpl. apply negb_true_iff. now apply String.eqb_neq. }
  unfold send_error. rewrite Hne.
  unfold mbind, M_bind, on_bot. now rewrite Hacc.
Qed.

(** X8: when the error code is not empty and the committee accessor raises,
    [send_error] raises the same exception: no reply is sent and nothing is
    logged, whatever message and logging message were given. *)
Theorem send_error_is_silent_on_failure (ctx : ApplicationContext) (code : string)
    (message : option text) (lm : LoggingMessage) (w : World B) (e : Exn) (b' : B) :
  code <> "" ->
  bot_committee_role settings (bot w) = (Raise e, b') ->
  send_error settings str_exn isspace decimal ctx (Some code) message lm w
  = (Raise e, mkWorld b' (closed w) (responses w) (logged w)).
Proof.
  intros Hcode Hacc.
  assert (Hne : Str.nonempty (Some code) = true).
  { simpl. apply negb_true_iff. now apply String.eqb_neq. }
  unfold send_error. rewrite Hne.
  unfold mbind, M_bind, on_bot. now rewrite Hacc.
Qed.

End SendErrorLaws.

(** ** Further properties of the substitution *)

Section PlainMessages.

Import Cogs.

Local Open Scope list_scope.

Context {B : Type} `{TeXBotLike B}.

Variable settings : gmap string PyVal.
Variable str_exn : Exn -> string.
Variable isspace : N -> bool.
Variable decimal : N -> bool.

(** X9: a non-empty message whose stripped text has no "<" comes out
    verbatim: the reply that [send_error] sends ends with a line holding the
    stripped message between two backticks.  What is stripped is the
    whitespace of the table [isspace], whatever that table is. *)
Theorem send_error_keeps_plain_messages (ctx : ApplicationContext)
    (error_code : option string) (msg : text) (lm : LoggingMessage) (w : World B)
    (reply : text) :
  msg <> [] ->
  Forall (fun c => c <> 60%N) (Text.strip isspace msg) ->
  responses (snd (send_error settings str_exn isspace decimal ctx error_code (Some msg)
                    lm w))
  = responses w ++ [(reply, true)] ->
  exists head,
    reply
    = head ++ text_of Str.newline ++ text_of "`" ++ Text.strip isspace msg ++ text_of "`".
Proof.
  intros Hmsg Hplain Hsent.
  destruct (sent_text_is_reply_text settings str_exn isspace decimal ctx error_code
              (Some msg) lm w reply Hsent) as [opening ->].
  destruct (reply_text_with_message isspace decimal opening ctx msg Hmsg) as [head ->].
  rewrite (sub_plain decimal _ _ Hplain).
  exists head. reflexivity.
Qed.

End PlainMessages.

Section PatternLanguage.

Import Re.

Local Open Scope list_scope.

Variable decimal : N -> bool.

(** X10: for a table of decimal digits that holds 0 to 9 and nothing else on
    the ASCII range, the pattern of [send_error] matches at the start of a
    text exactly when the text opens with "<", one of the six prefixes (none,
    "@", "&", "#", "@&", "@#"), one or more decimal digits and ">"; the match
    is that opening.  Besides the four mention forms it therefore also wraps
    "<&1>" and "<@#1>", and the digits may be those of any script. *)
Theorem mention_pattern_matches_exactly (s rest : text) :
  ascii_digits decimal ->
  rmatch (mention_pattern decimal) s Some = Some rest
  <-> exists tok, wrapped_form decimal tok /\ s = tok ++ rest.
Proof.
  intros Hdec. split.
  - intros Hm. destruct (rmatch_sound _ _ _ _ Hm) as [m [s' [-> [Hlang Hk]]]].
    injection Hk as ->. exists m. split; [now apply mention_pattern_denotes | reflexivity].
  - intros [tok [Htok ->]]. now apply wrapped_form_matches.
Qed.

End PatternLanguage.

(** ** Further properties of the decorators *)

Section CaptureLaws.

Import Cogs.

Context {B : Type} `{TeXBotLike B}.

Variable str_exn : Exn -> string.
Variable repr : string -> string.

Lemma capture_error_escapes {P T : Type} (func : Instance -> P -> M (World B) T)
    (error_type : ExnType) (close_func : Exn -> M (World B) unit) (args : P)
    (w w' : World B) (e : Exn) :
  (forall error w0, exists w1, close_func error w0 = (Return tt, w1)) ->
  capture_error repr func error_type close_func CogInstance args w = (Raise e, w') ->
  error_type e = false /\ func CogInstance args w = (Raise e, w').
Proof.
  intros Hclose. unfold capture_error.
  destruct (func CogInstance args w) as [[v|error] w0]; [discriminate|].
  destruct (error_type error) eqn:Htype.
  - destruct (Hclose error w0) as [w1 Hw1]. unfold mbind, M_bind. rewrite Hw1. discriminate.
  - intros E. injection E as <- <-. auto.
Qed.

(** X11: neither decorator lets its own exception type out: whatever the
    wrapper of [capture_guild_does_not_exist_error] raises when called on a
    cog is not a [GuildDoesNotExist], whatever that of
    [capture_strike_tracking_error] raises is not a [StrikeTrackingError],
    and in both cases it is what the wrapped coroutine raised. *)
Theorem decorators_contain_their_exception {P T : Type}
    (func : Instance -> P -> M (World B) T) (args : P) (w w' : World B) (e : Exn) :
  (capture_guild_does_not_exist_error str_exn repr func CogInstance args w = (Raise e, w') ->
   GuildDoesNotExist_type e = false /\ func CogInstance args w = (Raise e, w'))
  /\ (capture_strike_tracking_error str_exn repr func CogInstance args w = (Raise e, w') ->
      StrikeTrackingError_type e = false /\ func CogInstance args w = (Raise e, w')).
Proof.
  split; apply capture_error_escapes; intros error w0; eexists; reflexivity.
Qed.

(** X12: when the wrapped coroutine raises a [StrikeTrackingError], the
    wrapper of [capture_strike_tracking_error] logs the exception text
    (trailing dots and colons removed) as critical, then the warning about
    untracked moderation actions, closes the bot and returns [None]. *)
Theorem strike_tracking_capture_logs_twice {P T : Type}
    (func : Instance -> P -> M (World B) T) (args : P) (w w' : World B) (message : string) :
  func CogInstance args w = (Raise (StrikeTrackingError message), w') ->
  capture_strike_tracking_error str_exn repr func CogInstance args w
  = (Return None,
     mkWorld (bot w') true (responses w')
       (logged w'
          ++ [(CRITICAL, Str.rstrip (Str.contains ".:")
                           (str_exn (StrikeTrackingError message)));
              (WARNING, "Critical errors are likely to lead to untracked moderation actions")])).
Proof.
  intros Hf. unfold capture_strike_tracking_error, capture_error. rewrite Hf.
  unfold strike_tracking_error_close_func, guild_does_not_exist_error_close_func,
    mbind, M_bind, logging, close, modify, mret, M_ret.
  simpl. now rewrite <- List.app_assoc.
Qed.

End CaptureLaws.

(** ** What [rstrip] removes *)

Lemma rstrip_splits (p : ascii -> bool) (s : string) :
  exists removed, s = Str.rstrip p s ++ removed /\ every (fun c => p c = true) removed.
Proof.
  induction s as [|c s [removed [Hs Hr]]]; [exists ""; simpl; auto|].
  simpl. destruct (Str.rstrip p s) as [|c' kept] eqn:E.
  - destruct (p c) eqn:Hc.
    + exists (String c removed). rewrite append_nil_l in *. subst s. simpl. auto.
    + exists removed. rewrite append_nil_l in Hs. subst s. simpl. auto.
  - exists removed. rewrite append_cons. now rewrite <- Hs.
Qed.

Lemma rstrip_ends_kept (p : ascii -> bool) (s head : string) (c : ascii) :
  Str.rstrip p s = head ++ String c "" -> p c = false.
Proof.
  revert head. induction s as [|d s IH]; intros head; simpl.
  - destruct head; discriminate.
  - destruct (Str.rstrip p s) as [|c' kept] eqn:E.
    + destruct (p d) eqn:Hd; [destruct head; discriminate|].
      destruct head as [|h head]; rewrite ?append_cons, ?append_nil_l.
      * intros E'. now injection E' as <-.
      * intros E'. injection E' as _ E'. destruct head; discriminate.
    + destruct head as [|h head]; rewrite ?append_cons, ?append_nil_l.
      * discriminate.
      * intros E'. injection E' as _ E'. now apply (IH head).
Qed.

Section CloseFunc.

Import Cogs.

Context {B : Type} `{TeXBotLike B}.

Variable str_exn : Exn -> string.

(** X13: the close function of [capture_guild_does_not_exist_error] logs one
    critical record and changes nothing else; its text is the exception's
    text up to a removed tail made of dots and colons only, and it does not
    itself end in a dot or a colon. *)
Theorem close_func_logs_trimmed_text (error : Exn) (w : World B) :
  exists text removed,
    guild_does_not_exist_error_close_func str_exn error w
    = (Return tt, mkWorld (bot w) (closed w) (responses w) (logged w ++ [(CRITICAL, text)]))
    /\ str_exn error = text ++ removed
    /\ every (fun c => c = "."%char \/ c = ":"%char) removed
    /\ forall head c, text = head ++ String c "" -> c <> "."%char /\ c <> ":"%char.
Proof.
  destruct (rstrip_splits (Str.contains ".:") (str_exn error)) as [removed [Hs Hr]].
  exists (Str.rstrip (Str.contains ".:") (str_exn error)), removed.
  split; [reflexivity|]. split; [exact Hs|]. split.
  - clear Hs. induction removed as [|c removed IH]; [exact I|].
    destruct Hr as [Hc Hr]. split; [|now apply IH].
    simpl in Hc. rewrite !orb_true_iff, !Ascii.eqb_eq in Hc.
    destruct Hc as [Hc|[Hc|Hc]]; [now left | now right | discriminate Hc].
  - intros head c Htext. apply rstrip_ends_kept in Htext.
    split; intros ->; discriminate Htext.
Qed.

End CloseFunc.

(** ** A command that reports an error while the guild is missing *)

Section ReportWithoutGuild.

Import Cogs.

Variable settings : gmap string PyVal.
Variable str_exn : Exn -> string.
Variable repr : string -> string.
Variable isspace : N -> bool.
Variable decimal : N -> bool.

Lemma awaited_property_raises (w : World TeXBot) (e : Exn) (b' : TeXBot) :
  committee_role settings (bot w) = (Raise e, b') ->
  bot_committee_role settings (bot w) = (Raise e, b').
Proof.
  intros Hacc. cbn [bot_committee_role TeXBot_TeXBotLike].
  unfold mbind, M_bind. now rewrite Hacc.
Qed.

Lemma awaited_property_returns (w : World TeXBot) (o : PyObj) (b' : TeXBot) :
  committee_role settings (bot w) = (Return o, b') ->
  exists reason, bot_committee_role settings (bot w) = (Raise (TypeError reason), b').
Proof.
  intros Hacc. cbn [bot_committee_role TeXBot_TeXBotLike].
  unfold mbind, M_bind. rewrite Hacc. eexists. reflexivity.
Qed.

(** X14: on the bot class of [utils.py], when the guild accessor raises
    [GuildDoesNotExist], a command wrapped by
    [capture_guild_does_not_exist_error] that calls [send_error] with a
    non-empty error code sends no reply: the wrapper logs the exception as
    critical, closes the bot and returns [None], and the cache is untouched. *)
Theorem reporting_without_guild_closes_the_bot (ctx : ApplicationContext) (code : string)
    (message : option text) (lm : LoggingMessage) (w : World TeXBot) (wanted : PyVal)
    (cached : PyObj) :
  code <> "" ->
  fst (css_guild settings (bot w)) = Raise (GuildDoesNotExist wanted) ->
  attrs (bot w) !! "_committee_role" = Some cached ->
  capture_guild_does_not_exist_error str_exn repr
    (fun (_ : Instance) (_ : unit) =>
       send_error settings str_exn isspace decimal ctx (Some code) message lm)
    CogInstance tt w
  = (Return None,
     mkWorld (bot w) true (responses w)
       (logged w ++ [(CRITICAL, Str.rstrip (Str.contains ".:")
                                  (str_exn (GuildDoesNotExist wanted)))])).
Proof.
  intros Hcode Hguild Hslot.
  assert (Hacc : bot_committee_role settings (bot w)
                 = (Raise (GuildDoesNotExist wanted), bot w)).
  { apply awaited_property_raises.
    apply (role_property_raises settings _ _ (bot w) cached); assumption. }
  pose proof (send_error_raises settings str_exn isspace decimal ctx code message lm w
                _ _ Hcode Hacc) as Hsend.
  unfold capture_guild_does_not_exist_error, capture_error. now rewrite Hsend.
Qed.

(** X18: on the bot class of [utils.py], whose [committee_role] is a plain
    property, [send_error] with a non-empty error code never replies: the
    property runs, possibly refreshing the cache, and then either its own
    exception or the [TypeError] of the [await] applied to its value leaves
    [send_error], before anything is sent or logged. *)
Theorem send_error_cannot_await_a_property (ctx : ApplicationContext) (code : string)
    (message : option text) (lm : LoggingMessage) (w : World TeXBot) :
  code <> "" ->
  exists e,
    send_error settings str_exn isspace decimal ctx (Some code) message lm w
    = (Raise e,
       mkWorld (snd (committee_role settings (bot w))) (closed w) (responses w) (logged w))
    /\ (forall o, fst (committee_role settings (bot w)) = Return o ->
                  exists reason, e = TypeError reason)
    /\ (forall e', fst (committee_role settings (bot w)) = Raise e' -> e = e').
Proof.
  intros Hcode.
  destruct (committee_role settings (bot w)) as [[o|e'] b'] eqn:Hacc.
  - destruct (awaited_property_returns w o b' Hacc) as [reason Hawait].
    exists (TypeError reason). split.
    + now apply send_error_raises.
    + split; [intros o' _; now exists reason|discriminate].
  - exists e'. split.
    + apply send_error_raises; [exact Hcode|now apply awaited_property_raises].
    + split; [discriminate|]. intros e'' E. now injection E.
Qed.

End ReportWithoutGuild.

Lemma reporting_without_guild_closes_the_bot_witness :
  let w := Cogs.mkWorld Examples.fresh_bot false [] [] in
  Cogs.capture_guild_does_not_exist_error Examples.str_exn Examples.quoted
    (fun (_ : Cogs.Instance) (_ : unit) =>
       Cogs.send_error Examples.settings Examples.str_exn Examples.isspace Examples.decimal
         Examples.ping_context (Some "E1011") (Some (text_of "<@5> left"))
         (Cogs.LoggingStr "left"))
    Cogs.CogInstance tt w
  = (Return None,
     Cogs.mkWorld Examples.fresh_bot true []
       [(Cogs.CRITICAL, "Server with ID does not exist")]).
Proof.
  cbv zeta.
  apply (reporting_without_guild_closes_the_bot Examples.settings Examples.str_exn
           Examples.quoted Examples.isspace Examples.decimal Examples.ping_context "E1011"
           (Some (text_of "<@5> left")) (Cogs.LoggingStr "left")
           (Cogs.mkWorld Examples.fresh_bot false [] []) (PyInt 7) ONone).
  - discriminate.
  - reflexivity.
  - reflexivity.
Defined.

Lemma send_error_cannot_await_a_property_witness :
  "E1011" <> ""
  /\ exists reason,
      Cogs.send_error Examples.settings Examples.str_exn Examples.isspace Examples.decimal
        Examples.ping_context (Some "E1011") None (Cogs.LoggingStr "oops") Examples.world
      = (Raise (TypeError reason),
         Cogs.mkWorld
           (assigned "_committee_role" (ORole Examples.committee) Examples.ready_bot)
           false [] []).
Proof.
  split; [discriminate|].
  destruct (send_error_cannot_await_a_property Examples.settings Examples.str_exn
              Examples.isspace Examples.decimal Examples.ping_context "E1011" None
              (Cogs.LoggingStr "oops") Examples.world) as [e [Hrun [Htype _]]].
  - discriminate.
  - destruct (Htype (ORole Examples.committee) eq_refl) as [reason ->].
    exists reason. exact Hrun.
Defined.

(** ** The channel autocomplete *)

Section AutocompleteFacts.

Import Autocomplete.

Context {B : Type} `{GuildBotLike B}.

Variable settings : gmap string PyVal.
Variable Member : Type.
Variable get_member : Guild -> Z -> option Member.
Variable permissions_for : TextChannel -> PyObj + Member -> Permissions.

(** X15: the autocomplete answers with the empty set, raising nothing, when
    the interaction has no user (the bot is not even consulted) and when the
    guild accessor raises [GuildDoesNotExist]. *)
Theorem autocomplete_offers_nothing (ctx : AutocompleteContext) (b : B) :
  (interaction_user ctx = None ->
   autocomplete_get_text_channels settings Member get_member permissions_for ctx b
   = (Return [], b))
  /\ (forall user_id wanted b',
         interaction_user ctx = Some user_id ->
         bot_css_guild settings b = (Raise (GuildDoesNotExist wanted), b') ->
         autocomplete_get_text_channels settings Member get_member permissions_for ctx b
         = (Return [], b')).
Proof.
  unfold autocomplete_get_text_channels. split.
  - now intros ->.
  - intros user_id wanted b' -> Hg. now rewrite Hg.
Qed.

(** X16: when the interaction has a user, the guild accessor answers with the
    guild [g] and awaiting the guest-role accessor yields a role, the
    autocomplete offers one choice for each text channel of [g] in which the
    limiter (the guild member with the user's id when there is one, else the
    guest role) may both send messages and view the channel, and nothing
    else.  The value of a choice is the channel id in decimal; its name is
    the channel name, with a leading "#" exactly when the typed text is empty
    or is a "#" followed by no line feed.  The typed text plays no other
    part. *)
Theorem autocomplete_offers_postable_channels (ctx : AutocompleteContext) (b b1 b2 : B)
    (user_id : Z) (g : Guild) (role : Role) :
  interaction_user ctx = Some user_id ->
  bot_css_guild settings b = (Return (OGuild g), b1) ->
  bot_guest_role settings b1 = (Return (ORole role), b2) ->
  let limiter :=
    match get_member g user_id with
    | Some member => inr member
    | None => inl (ORole role)
    end in
  let shown (c : TextChannel) :=
    if bool_decide (value ctx = []) || hash_query (value ctx)
    then "#" ++ channel_name c else channel_name c in
  exists choices,
    autocomplete_get_text_channels settings Member get_member permissions_for ctx b
    = (Return choices, b2)
    /\ forall choice,
        In choice choices
        <-> exists c, In c (text_channels g)
                      /\ ({[ "send_messages"; "view_channel" ]} : gset string)
                           ⊆ permissions_for c limiter
                      /\ choice = mkChoice (shown c) (str_int (channel_id c)).
Proof.
  intros Huser Hg Hr limiter shown.
  unfold autocomplete_get_text_channels. rewrite Huser, Hg.
  unfold mbind, M_bind. rewrite Hr.
  cbn [obj_truthy negb attr_get_member attr_text_channels lift_result mret M_ret].
  fold limiter.
  exists (map (fun c => mkChoice (shown c) (str_int (channel_id c)))
            (filter (fun c => may_post Member permissions_for limiter c = true) (text_channels g))).
  assert (Hempty : negb (Text.nonempty (Some (value ctx))) = bool_decide (value ctx = [])).
  { destruct (value ctx); reflexivity. }
  split.
  - unfold shown. rewrite Hempty.
    now destruct (bool_decide (value ctx = []) || hash_query (value ctx)).
  - intros choice. rewrite in_map_iff. split.
    + intros [c [<- Hc]]. apply list_elem_of_In, list_elem_of_filter in Hc.
      destruct Hc as [Hpost Hin]. exists c. split; [now apply list_elem_of_In|].
      split; [|reflexivity]. unfold may_post in Hpost. now apply bool_decide_eq_true in Hpost.
    + intros [c [Hin [Hpost ->]]]. exists c. split; [reflexivity|].
      apply list_elem_of_In, list_elem_of_filter. split; [|now apply list_elem_of_In].
      unfold may_post. now apply bool_decide_eq_true.
Qed.

End AutocompleteFacts.

Section AutocompleteOnTeXBot.

Import Autocomplete.

Variable settings : gmap string PyVal.
Variable Member : Type.
Variable get_member : Guild -> Z -> option Member.
Variable permissions_for : TextChannel -> PyObj + Member -> Permissions.

Lemma role_property_no_guild_error (slot name : string) (self self' : TeXBot)
    (guild : PyObj) (e : Exn) :
  fst (css_guild settings self) = Return guild ->
  role_property settings slot name self = (Raise e, self') ->
  GuildDoesNotExist_type e = false.
Proof.
  intros Hg. apply css_guild_pair in Hg.
  unfold role_property, mbind, M_bind, getattr, lift_result, mret, M_ret.
  destruct (attrs self !! slot) as [cached|] eqn:Hc;
    [|intros E; now injection E as <- _].
  destruct guild as [|g| |];
    try (destruct cached; simpl; rewrite ?Hg; simpl; intros E; now injection E as <- _).
  destruct cached as [|g'|r|c]; simpl; rewrite Hg; simpl; rewrite ?Hc; simpl;
    rewrite ?lookup_insert_eq; try discriminate;
    destruct (is_none _); simpl; rewrite ?Hg; simpl; rewrite ?Hc, ?lookup_insert_eq;
    discriminate.
Qed.

(** X17: on the bot class of [utils.py] the autocomplete never raises
    [GuildDoesNotExist]: the one raised by the guild accessor is turned into
    the empty set, and the guest-role accessor, called next, cannot raise it
    any more. *)
Theorem autocomplete_never_raises_guild_error (ctx : AutocompleteContext)
    (b b' : TeXBot) (e : Exn) :
  autocomplete_get_text_channels (B := TeXBot) settings Member get_member permissions_for
    ctx b = (Raise e, b') ->
  GuildDoesNotExist_type e = false.
Proof.
  unfold autocomplete_get_text_channels.
  destruct (interaction_user ctx) as [user_id|]; [|discriminate].
  cbn [bot_css_guild bot_guest_role TeXBot_GuildBotLike].
  pose proof (css_guild_pure settings b) as Hpure.
  destruct (css_guild settings b) as [[guild|e0] b1] eqn:Hg; simpl in Hpure; subst b1.
  - unfold mbind, M_bind.
    destruct (guest_role settings b) as [[limiter|e1] b2] eqn:Hr.
    + unfold Cogs.await_object, raise. intros E. now injection E as <- _.
    + intros E. injection E as <- <-.
      apply (role_property_no_guild_error "_guest_role" "Guest" b b2 guild e1);
        [now rewrite Hg | exact Hr].
  - destruct (GuildDoesNotExist_type e0) eqn:Ht; [discriminate|].
    intros E. now injection E as <- _.
Qed.

(** X19: on the bot class of [utils.py], whose [guest_role] is a plain
    property, the autocomplete offers nothing once the interaction has a user
    and the guild accessor has answered: the property runs, and when it
    returns, the [await] applied to its value raises [TypeError]. *)
Theorem autocomplete_cannot_await_a_property (ctx : AutocompleteContext)
    (b b1 b2 : TeXBot) (user_id : Z) (guild limiter : PyObj) :
  interaction_user ctx = Some user_id ->
  css_guild settings b = (Return guild, b1) ->
  guest_role settings b1 = (Return limiter, b2) ->
  exists reason,
    autocomplete_get_text_channels (B := TeXBot) settings Member get_member permissions_for
      ctx b
    = (Raise (TypeError reason), b2).
Proof.
  intros Huser Hg Hr. unfold autocomplete_get_text_channels. rewrite Huser.
  cbn [bot_css_guild bot_guest_role TeXBot_GuildBotLike]. rewrite Hg.
  unfold mbind, M_bind. rewrite Hr. eexists. reflexivity.
Qed.

End AutocompleteOnTeXBot.

(** ** The further properties at work on the examples *)

Lemma send_error_logs_once_witness :
  Cogs.logged
    (snd (Cogs.send_error Examples.settings Examples.str_exn Examples.isspace
            Examples.decimal Examples.ping_context None None (Cogs.LoggingStr "oops")
            Examples.world))
  = [(Cogs.ERROR, "(ping) oops")].
Proof.
  assert (Hrun : Cogs.send_error Examples.settings Examples.str_exn Examples.isspace
                   Examples.decimal Examples.ping_context None None
                   (Cogs.LoggingStr "oops") Examples.world
                 = (Return tt,
                    snd (Cogs.send_error Examples.settings Examples.str_exn
                           Examples.isspace Examples.decimal Examples.ping_context None
                           None (Cogs.LoggingStr "oops") Examples.world)))
    by (vm_compute; reflexivity).
  destruct (send_error_logs_once Examples.settings Examples.str_exn Examples.isspace
              Examples.decimal Examples.ping_context None None (Cogs.LoggingStr "oops")
              Examples.world _ Hrun) as [_ Hlog].
  exact Hlog.
Defined.

Lemma send_error_is_silent_on_failure_witness :
  let w := Cogs.mkWorld Examples.fresh_bot false [] [] in
  Cogs.send_error Examples.settings Examples.str_exn Examples.isspace Examples.decimal
    Examples.ping_context (Some "E1011") (Some (text_of "gone")) (Cogs.LoggingStr "oops") w
  = (Raise (GuildDoesNotExist (PyInt 7)), w).
Proof.
  cbv zeta.
  apply (send_error_is_silent_on_failure (B := TeXBot) Examples.settings Examples.str_exn
           Examples.isspace Examples.decimal Examples.ping_context "E1011"
           (Some (text_of "gone")) (Cogs.LoggingStr "oops")
           (Cogs.mkWorld Examples.fresh_bot false [] [])
           (GuildDoesNotExist (PyInt 7)) Examples.fresh_bot).
  - discriminate.
  - reflexivity.
Defined.

Lemma send_error_keeps_plain_messages_witness :
  let reply :=
    text_of (":warning:There was an error when trying to reply to ping::warning:"
               ++ Str.newline ++ "`user gone`") in
  Cogs.responses
    (snd (Cogs.send_error Examples.settings Examples.str_exn Examples.isspace
            Examples.decimal Examples.ping_context None
            (Some ([160%N; 32%N] ++ text_of "user gone" ++ [133%N; 160%N])%list)
            Cogs.NoLoggingMessage Examples.world))
  = [(reply, true)]
  /\ exists head,
      reply
      = (head ++ text_of Str.newline ++ text_of "`" ++ text_of "user gone"
           ++ text_of "`")%list.
Proof.
  cbv zeta.
  assert (Hsent : Cogs.responses
                    (snd (Cogs.send_error Examples.settings Examples.str_exn
                            Examples.isspace Examples.decimal Examples.ping_context None
                            (Some ([160%N; 32%N] ++ text_of "user gone"
                                     ++ [133%N; 160%N])%list)
                            Cogs.NoLoggingMessage Examples.world))
                  = [(text_of
                        (":warning:There was an error when trying to reply to ping::warning:"
                           ++ Str.newline ++ "`user gone`"), true)])
    by (vm_compute; reflexivity).
  split; [exact Hsent|].
  apply (send_error_keeps_plain_messages (B := TeXBot) Examples.settings Examples.str_exn
           Examples.isspace Examples.decimal Examples.ping_context None
           ([160%N; 32%N] ++ text_of "user gone" ++ [133%N; 160%N])%list
           Cogs.NoLoggingMessage Examples.world).
  - discriminate.
  - vm_compute. repeat (apply List.Forall_cons; [discriminate|]). apply List.Forall_nil.
  - exact Hsent.
Defined.

Lemma mention_pattern_matches_exactly_witness :
  ascii_digits Examples.decimal
  /\ Re.rmatch (Re.mention_pattern Examples.decimal)
       (text_of "<@#1" ++ [1635%N] ++ text_of "> and more")%list Some
     = Some (text_of " and more").
Proof.
  split; [exact examples_decimal_ascii|].
  apply (mention_pattern_matches_exactly Examples.decimal
           (text_of "<@#1" ++ [1635%N] ++ text_of "> and more")%list (text_of " and more")
           examples_decimal_ascii).
  exists (text_of "<@#1" ++ [1635%N] ++ text_of ">")%list. split; [|reflexivity].
  exists "@#", [49%N; 1635%N]. split; [do 5 right; left; reflexivity|].
  split; [discriminate|]. split; [|reflexivity].
  repeat (apply List.Forall_cons; [reflexivity|]). apply List.Forall_nil.
Defined.

Lemma decorators_contain_their_exception_witness :
  let w := Cogs.mkWorld Examples.ready_bot false [] [] in
  Cogs.capture_guild_does_not_exist_error Examples.str_exn Examples.quoted
    MoreExamples.misconfigured Cogs.CogInstance tt w
  = (Raise (KeyError "DISCORD_GUILD_ID"), w)
  /\ GuildDoesNotExist_type (KeyError "DISCORD_GUILD_ID") = false.
Proof.
  cbv zeta.
  assert (Hrun : Cogs.capture_guild_does_not_exist_error Examples.str_exn Examples.quoted
                   MoreExamples.misconfigured Cogs.CogInstance tt
                   (Cogs.mkWorld Examples.ready_bot false [] [])
                 = (Raise (KeyError "DISCORD_GUILD_ID"),
                    Cogs.mkWorld Examples.ready_bot false [] []))
    by (vm_compute; reflexivity).
  split; [exact Hrun|].
  destruct (decorators_contain_their_exception Examples.str_exn Examples.quoted
              MoreExamples.misconfigured tt (Cogs.mkWorld Examples.ready_bot false [] [])
              (Cogs.mkWorld Examples.ready_bot false [] []) (KeyError "DISCORD_GUILD_ID"))
    as [Hguild _].
  exact (proj1 (Hguild Hrun)).
Defined.

Lemma strike_tracking_capture_logs_twice_witness :
  Cogs.capture_strike_tracking_error Examples.str_exn Examples.quoted
    MoreExamples.failing_strike Cogs.CogInstance tt Examples.world
  = (Return None,
     Cogs.mkWorld Examples.ready_bot true []
       [(Cogs.CRITICAL, "Strike could not be tracked");
        (Cogs.WARNING,
         "Critical errors are likely to lead to untracked moderation actions")]).
Proof.
  apply (strike_tracking_capture_logs_twice Examples.str_exn Examples.quoted
           MoreExamples.failing_strike tt Examples.world Examples.world
           "Strike could not be tracked.").
  reflexivity.
Defined.

Lemma autocomplete_offers_nothing_witness :
  Autocomplete.autocomplete_get_text_channels Examples.settings unit MoreExamples.no_member
    MoreExamples.permissions_for MoreExamples.typing_hash Examples.fresh_bot
  = (Return [], Examples.fresh_bot).
Proof.
  destruct (autocomplete_offers_nothing (B := TeXBot) Examples.settings unit
              MoreExamples.no_member MoreExamples.permissions_for MoreExamples.typing_hash
              Examples.fresh_bot) as [_ Hguild].
  apply (Hguild 5 (PyInt 7)); reflexivity.
Defined.

Lemma autocomplete_offers_postable_channels_witness :
  exists choices,
    Autocomplete.autocomplete_get_text_channels Examples.settings unit MoreExamples.no_member
      MoreExamples.permissions_for MoreExamples.typing_hash Examples.awaited_bot
    = (Return choices, Examples.awaited_bot)
    /\ (In (Autocomplete.mkChoice "#general" "22") choices
        <-> exists c, In c (text_channels Examples.guild)
                      /\ ({[ "send_messages"; "view_channel" ]} : gset string)
                           ⊆ MoreExamples.permissions_for c (inl (ORole Examples.guest))
                      /\ Autocomplete.mkChoice "#general" "22"
                         = Autocomplete.mkChoice ("#" ++ channel_name c)
                             (Autocomplete.str_int (channel_id c))).
Proof.
  assert (Hg : Autocomplete.bot_css_guild Examples.settings Examples.awaited_bot
               = (Return (OGuild Examples.guild), Examples.awaited_bot))
    by reflexivity.
  assert (Hr : Autocomplete.bot_guest_role Examples.settings Examples.awaited_bot
               = (Return (ORole Examples.guest), Examples.awaited_bot))
    by reflexivity.
  destruct (autocomplete_offers_postable_channels (B := Cogs.AwaitableBot)
              Examples.settings unit MoreExamples.no_member MoreExamples.permissions_for
              MoreExamples.typing_hash Examples.awaited_bot Examples.awaited_bot
              Examples.awaited_bot 5 Examples.guild Examples.guest eq_refl Hg Hr)
    as [choices [Hrun Hchoices]].
  exists choices. split; [exact Hrun|]. exact (Hchoices (Autocomplete.mkChoice "#general" "22")).
Defined.

Lemma autocomplete_never_raises_guild_error_witness :
  Autocomplete.autocomplete_get_text_channels ∅ unit MoreExamples.no_member
    MoreExamples.permissions_for MoreExamples.typing_hash Examples.ready_bot
  = (Raise (KeyError "DISCORD_GUILD_ID"), Examples.ready_bot)
  /\ GuildDoesNotExist_type (KeyError "DISCORD_GUILD_ID") = false.
Proof.
  assert (Hrun : Autocomplete.autocomplete_get_text_channels ∅ unit MoreExamples.no_member
                   MoreExamples.permissions_for MoreExamples.typing_hash Examples.ready_bot
                 = (Raise (KeyError "DISCORD_GUILD_ID"), Examples.ready_bot))
    by (vm_compute; reflexivity).
  split; [exact Hrun|].
  exact (autocomplete_never_raises_guild_error ∅ unit MoreExamples.no_member
           MoreExamples.permissions_for MoreExamples.typing_hash Examples.ready_bot
           Examples.ready_bot (KeyError "DISCORD_GUILD_ID") Hrun).
Defined.

Lemma autocomplete_cannot_await_a_property_witness :
  exists reason,
    Autocomplete.autocomplete_get_text_channels Examples.settings unit MoreExamples.no_member
      MoreExamples.permissions_for MoreExamples.typing_hash Examples.ready_bot
    = (Raise (TypeError reason), MoreExamples.bot_with_guest).
Proof.
  apply (autocomplete_cannot_await_a_property Examples.settings unit MoreExamples.no_member
           MoreExamples.permissions_for MoreExamples.typing_hash Examples.ready_bot
           Examples.ready_bot MoreExamples.bot_with_guest 5 (OGuild Examples.guild)
           (ORole Examples.guest)).
  - reflexivity.
  - vm_compute. reflexivity.
  - vm_compute. reflexivity.
Defined.
